(** * SmartHouse persistence layer: a shallow embedding of
      [smarthouse/persistence.py] (class [SmartHouseRepository]).

    The SQLite database is a record of four relations, each a list of rows in
    row order.  A query is a list comprehension over these lists, an [UPDATE]
    is a [map] over the rows.  Python exceptions are values of [exn]; a method
    that can raise returns a [result].

    Numbers stored in [REAL] columns are rationals ([Q]); SQLite's [AVG] and
    the comparisons of the code are taken exactly (no rounding).  Timestamps
    are the text that [datetime('now')] writes, [YYYY-MM-DD HH:MM:SS], compared
    as SQLite compares text: byte by byte. *)

From Stdlib Require Import ZArith QArith Qreduction String Ascii Bool Lia.
From Stdlib Require OrderedTypeEx.
From stdpp Require Import gmap strings list fin_maps sorting.

Local Open Scope string_scope.
Local Open Scope Z_scope.
Local Open Scope list_scope.

(* ===================================================================== *)
(** * Python exceptions and results *)
(* ===================================================================== *)

(** The exception classes the code can raise: [TypeError] from
    [range(0, None)], [IndexError] from [floors[k]], [KeyError] from
    [room_dict[k]], [ValueError] from the explicit [raise] of
    [calc_hours_with_humidity_above] and from [int(...)]. *)
Inductive exn : Type :=
| TypeError
| IndexError
| KeyError
| ValueError (msg : string).

(** The name of the class of an exception, as [type(e).__name__]. *)
Definition exn_class (e : exn) : string :=
  match e with
  | TypeError => "TypeError"
  | IndexError => "IndexError"
  | KeyError => "KeyError"
  | ValueError _ => "ValueError"
  end.

Inductive result (A : Type) : Type :=
| Ok (a : A)
| Raise (e : exn).
Arguments Ok {A} a.
Arguments Raise {A} e.

Definition bind {A B} (r : result A) (k : A -> result B) : result B :=
  match r with
  | Ok a => k a
  | Raise e => Raise e
  end.

Notation "'let!' x ':=' r 'in' k" := (bind r (fun x => k))
  (at level 10, x pattern, r at level 100, k at level 200).

(** A [for] loop whose body can raise, threading the loop state. *)
Fixpoint for_each {A S} (body : S -> A -> result S) (xs : list A) (s : S)
  : result S :=
  match xs with
  | [] => Ok s
  | x :: xs' => let! s' := body s x in for_each body xs' s'
  end.

(** [[f(x) for x in xs]] where [f] can raise. *)
Fixpoint map_result {A B} (f : A -> result B) (xs : list A) : result (list B) :=
  match xs with
  | [] => Ok []
  | x :: xs' =>
      let! y := f x in
      let! ys := map_result f xs' in
      Ok (y :: ys)
  end.

(** [cursor.fetchone()]: the first row of the result set, or [None]. *)
Definition fetchone {A} (rows : list A) : option A := head rows.

(* ===================================================================== *)
(** * The relational store *)
(* ===================================================================== *)

(** [rooms(id, floor, area, name)] *)
Record room_row := {
  r_id : Z;
  r_floor : Z;
  r_area : Q;
  r_name : string
}.

(** [devices(id, room, kind, category, supplier, product, state)]; the
    [state] column is the one [update_actuator_state] writes. *)
Record device_row := {
  d_id : string;
  d_room : Z;
  d_kind : string;
  d_category : string;
  d_supplier : string;
  d_product : string;
  d_state : option Q
}.

(** [measurements(device, value, unit, ts)] *)
Record measurement_row := {
  m_device : string;
  m_value : Q;
  m_unit : string;
  m_ts : string
}.

(** [states(device, state)] *)
Record state_row := {
  s_device : string;
  s_state : option Q
}.

Record database := {
  tbl_rooms : list room_row;
  tbl_devices : list device_row;
  tbl_measurements : list measurement_row;
  tbl_states : list state_row
}.

(** The columns [SELECT id, room, kind, category, supplier, product] reads. *)
Record device_tuple := {
  t_id : string;
  t_room : Z;
  t_kind : string;
  t_category : string;
  t_supplier : string;
  t_product : string
}.

Definition select_device_columns (d : device_row) : device_tuple :=
  {| t_id := d_id d; t_room := d_room d; t_kind := d_kind d;
     t_category := d_category d; t_supplier := d_supplier d;
     t_product := d_product d |}.

(* ===================================================================== *)
(** * The device model *)
(* ===================================================================== *)

(** Modelled from the spec: the module [smarthouse.domain] is not among the
    sources.  The state of an actuator is one of [Off], [On] and
    [OnWithLevel level]; as a Python value ([Union[bool, float, None]] in
    [api.py]) these are [False], [True] and the float [level]. *)
Inductive ActuatorState : Type :=
| Off
| On
| OnWithLevel (level : Q).

(** Modelled from the spec: the three device variants of [smarthouse.domain],
    with the constructor arguments of the calls in [persistence.py]
    ([id], [model_name], [supplier], [device_type]); an actuator also holds
    its state. *)
Inductive Device : Type :=
| Sensor (id model_name supplier device_type : string)
| Actuator (id model_name supplier device_type : string) (state : ActuatorState)
| ActuatorWithSensor (id model_name supplier device_type : string)
                     (state : ActuatorState).

Definition dev_id (d : Device) : string :=
  match d with
  | Sensor i _ _ _ | Actuator i _ _ _ _ | ActuatorWithSensor i _ _ _ _ => i
  end.

(** Modelled from the spec: [isinstance(dev, Actuator)] holds of the
    actuator-capable variants, [Actuator] and [ActuatorWithSensor]. *)
Definition isinstance_Actuator (d : Device) : bool :=
  match d with
  | Sensor _ _ _ _ => false
  | _ => true
  end.


Definition set_state (s : ActuatorState) (d : Device) : Device :=
  match d with
  | Sensor i m su t => Sensor i m su t
  | Actuator i m su t _ => Actuator i m su t s
  | ActuatorWithSensor i m su t _ => ActuatorWithSensor i m su t s
  end.

(** Modelled from the spec: the mutators [turn_off()], [turn_on()] and
    [turn_on(level)] of [smarthouse.domain]; no transition is rejected. *)
Definition turn_off (d : Device) : Device := set_state Off d.

Definition turn_on (target_value : option Q) (d : Device) : Device :=
  match target_value with
  | None => set_state On d
  | Some level => set_state (OnWithLevel level) d
  end.

(** Modelled from the spec: a new actuator is in the default state, which the
    spec pins to [Off]. *)
Definition new_Actuator (i m su t : string) : Device := Actuator i m su t Off.
Definition new_ActuatorWithSensor (i m su t : string) : Device :=
  ActuatorWithSensor i m su t Off.

(* ===================================================================== *)
(** * Actuator state in the [devices] relation *)
(* ===================================================================== *)

(** Python truth value of a state passed as [new_state]: [False], [True], or
    a float, which is false exactly when it is zero. *)
Definition truthy (s : ActuatorState) : bool :=
  match s with
  | Off => false
  | On => true
  | OnWithLevel v => negb (Qeq_bool v 0)
  end.

(** [1 if new_state else 0] *)
Definition state_param (new_state : ActuatorState) : Q :=
  if truthy new_state then 1%Q else 0%Q.

(** [UPDATE devices SET state = ? WHERE id = ?] on one row. *)
Definition update_state_column (actuator_id : string) (v : option Q)
    (d : device_row) : device_row :=
  if String.eqb (d_id d) actuator_id then
    {| d_id := d_id d; d_room := d_room d; d_kind := d_kind d;
       d_category := d_category d; d_supplier := d_supplier d;
       d_product := d_product d; d_state := v |}
  else d.

(** [update_actuator_state(actuator, new_state)]; of [actuator] only the
    [id] is used. *)
Definition update_actuator_state (db : database) (actuator_id : string)
    (new_state : ActuatorState) : database :=
  {| tbl_rooms := tbl_rooms db;
     tbl_devices :=
       map (update_state_column actuator_id (Some (state_param new_state)))
           (tbl_devices db);
     tbl_measurements := tbl_measurements db;
     tbl_states := tbl_states db |}.

(** [bool(row[0])]: [NULL] and zero are false. *)
Definition py_bool (raw : option Q) : bool :=
  match raw with
  | None => false
  | Some v => negb (Qeq_bool v 0)
  end.

(** [get_actuator_state]: [SELECT state FROM devices WHERE id = ?], first
    row. *)
Definition get_actuator_state (db : database) (actuator_id : string)
  : option bool :=
  match fetchone (filter (fun d => String.eqb (d_id d) actuator_id)
                         (tbl_devices db)) with
  | Some row => Some (py_bool (d_state row))
  | None => None
  end.


(* ===================================================================== *)
(** * The house: floors, rooms, devices *)
(* ===================================================================== *)

(** Modelled from the spec: the classes [Room], [Floor] and [SmartHouse] of
    [smarthouse.domain], with the attribute names [api.py] reads
    ([room_size], [room_name], [devices], [level], [rooms]) and the [db_id]
    the loader sets.  Each is an ordered sequence of its children. *)
Record Room := {
  room_size : Q;
  room_name : string;
  db_id : option Z;
  devices : list Device
}.

Record Floor := {
  level : Z;
  rooms : list Room
}.

Record SmartHouse := {
  floors : list Floor
}.

(** A Python reference to a [Floor] object of the house is its position in
    the house, a reference to a [Room] its floor and its position there. *)
Abbreviation floor_ref := nat (only parsing).
Abbreviation room_ref := (nat * nat)%type (only parsing).

(** [SmartHouse()] *)
Definition new_SmartHouse : SmartHouse := {| floors := [] |}.

Definition with_rooms (f : list Room -> list Room) (fl : Floor) : Floor :=
  {| level := level fl; rooms := f (rooms fl) |}.

Definition with_devices (f : list Device -> list Device) (r : Room) : Room :=
  {| room_size := room_size r; room_name := room_name r; db_id := db_id r;
     devices := f (devices r) |}.

(** Modelled from the spec: [register_floor(level)] adds a floor after the
    floors registered so far and returns it. *)
Definition register_floor (sh : SmartHouse) (lvl : Z) : SmartHouse * floor_ref :=
  ({| floors := floors sh ++ [ {| level := lvl; rooms := [] |} ] |},
   length (floors sh)).

(** Modelled from the spec: [register_room(floor, room_size, room_name)] adds
    a room with no devices after the rooms of [floor] and returns it. *)
Definition register_room (sh : SmartHouse) (fl : floor_ref) (size : Q)
    (name : string) : SmartHouse * room_ref :=
  let room := {| room_size := size; room_name := name; db_id := None;
                 devices := [] |} in
  ({| floors := alter (with_rooms (fun rs => rs ++ [room])) fl (floors sh) |},
   (fl, from_option (fun f => length (rooms f)) 0%nat (floors sh !! fl))).

(** [room.db_id = int(room_tuple[0])] *)
Definition set_db_id (sh : SmartHouse) (room : room_ref) (i : Z) : SmartHouse :=
  let set r := {| room_size := room_size r; room_name := room_name r;
                  db_id := Some i; devices := devices r |} in
  {| floors := alter (with_rooms (alter set (snd room))) (fst room) (floors sh) |}.

(** Modelled from the spec: [register_device(room, device)] adds the device
    after the devices of [room]. *)
Definition register_device (sh : SmartHouse) (room : room_ref) (dev : Device)
  : SmartHouse :=
  {| floors :=
       alter (with_rooms (alter (with_devices (fun ds => ds ++ [dev])) (snd room)))
             (fst room) (floors sh) |}.

(** Modelled from the spec: [get_devices()], every device of every room of
    every floor, in that order. *)
Definition get_devices (sh : SmartHouse) : list Device :=
  concat (map (fun fl => concat (map devices (rooms fl))) (floors sh)).

(** A loop over [get_devices()] that mutates each device in place: every
    device object is in exactly one room, so the loop is a map over the
    devices where they are. *)
Definition map_devices (f : Device -> Device) (sh : SmartHouse) : SmartHouse :=
  {| floors := map (with_rooms (map (with_devices (map f)))) (floors sh) |}.

(** The levels of the floors of a house, in order. *)
Definition levels (sh : SmartHouse) : list Z := map level (floors sh).

(** The room a reference designates in a house. *)
Definition room_at (sh : SmartHouse) (ref : room_ref) (r : Room) : Prop :=
  exists fl, floors sh !! fst ref = Some fl /\ rooms fl !! snd ref = Some r.

(** A reference that designates a room of the house. *)
Definition valid_ref (sh : SmartHouse) (ref : room_ref) : Prop :=
  exists r, room_at sh ref r.

(** An update of the rooms of a floor that keeps every room in its place
    with at least the devices it had. *)
Definition keeps_devices (g : list Room -> list Room) : Prop :=
  forall rs j r,
    rs !! j = Some r ->
    exists r', g rs !! j = Some r' /\ forall x, In x (devices r) -> In x (devices r').

(* ===================================================================== *)
(** * Python containers *)
(* ===================================================================== *)

(** [l[k]] on a list: a negative index counts from the end. *)
Definition py_getitem {A} (l : list A) (k : Z) : result A :=
  let n := Z.of_nat (length l) in
  let i := if k <? 0 then k + n else k in
  if (0 <=? i) && (i <? n) then
    match l !! Z.to_nat i with
    | Some x => Ok x
    | None => Raise IndexError
    end
  else Raise IndexError.

(** [d[k]] on a dict. *)
Definition py_dict_getitem {V} (d : gmap Z V) (k : Z) : result V :=
  match d !! k with
  | Some v => Ok v
  | None => Raise KeyError
  end.

(** [range(0, stop)]; [stop] is [None] when it is an SQL [NULL]. *)
Definition py_range (stop : option Z) : result (list Z) :=
  match stop with
  | None => Raise TypeError
  | Some n => Ok (map Z.of_nat (seq 0 (Z.to_nat n)))
  end.

(** [SELECT MAX(col)]: [NULL] over no rows. *)
Definition sql_max (xs : list Z) : option Z :=
  match xs with
  | [] => None
  | x :: xs' => Some (fold_left Z.max xs' x)
  end.

(* ===================================================================== *)
(** * [load_smarthouse_deep] *)
(* ===================================================================== *)

(** [floors.append(result.register_floor(i + 1))] *)
Definition create_floor (st : SmartHouse * list floor_ref) (i : Z)
  : SmartHouse * list floor_ref :=
  let '(sh, fls) := st in
  let '(sh', fl) := register_floor sh (i + 1) in
  (sh', fls ++ [fl]).

(** The body of the loop over the room rows. *)
Definition create_room (fls : list floor_ref)
    (st : SmartHouse * gmap Z room_ref) (room_tuple : room_row)
  : result (SmartHouse * gmap Z room_ref) :=
  let '(sh, room_dict) := st in
  let! fl := py_getitem fls (r_floor room_tuple - 1) in
  let '(sh', room) := register_room sh fl (r_area room_tuple) (r_name room_tuple) in
  let sh'' := set_db_id sh' room (r_id room_tuple) in
  Ok (sh'', <[r_id room_tuple := room]> room_dict).

(** The device a device row stands for in [load_smarthouse_deep]; [None]
    when the category is neither ['sensor'] nor ['actuator']. *)
Definition device_of_tuple (device_tuple : device_tuple) : option Device :=
  let category := t_category device_tuple in
  if String.eqb category "sensor" then
    Some (Sensor (t_id device_tuple) (t_product device_tuple)
                 (t_supplier device_tuple) (t_kind device_tuple))
  else if String.eqb category "actuator" then
    if String.eqb (t_kind device_tuple) "Heat Pump" then
      Some (new_ActuatorWithSensor (t_id device_tuple) (t_product device_tuple)
                                   (t_supplier device_tuple) (t_kind device_tuple))
    else
      Some (new_Actuator (t_id device_tuple) (t_product device_tuple)
                         (t_supplier device_tuple) (t_kind device_tuple))
  else None.

(** The body of the loop over the device rows. *)
Definition create_device (room_dict : gmap Z room_ref) (sh : SmartHouse)
    (device_tuple : device_tuple) : result SmartHouse :=
  let! room := py_dict_getitem room_dict (t_room device_tuple) in
  match device_of_tuple device_tuple with
  | Some dev => Ok (register_device sh room dev)
  | None => Ok sh
  end.

(** The body of the loop over [result.get_devices()]: the state of an
    actuator is read from the first row of [states] for its id.  (The query
    is built by interpolating [dev.id] between quotes; see
    [actuator_ids_plain].) *)
Definition load_state (db : database) (dev : Device) : Device :=
  if isinstance_Actuator dev then
    match fetchone (filter (fun s => String.eqb (s_device s) (dev_id dev))
                           (tbl_states db)) with
    | Some state_result =>
        match s_state state_result with
        | None => turn_off dev
        | Some state =>
            if Qeq_bool state 1 then turn_on None dev
            else turn_on (Some state) dev
        end
    | None => dev
    end
  else dev.

Definition load_smarthouse_deep (db : database) : result SmartHouse :=
  let result := new_SmartHouse in
  let no_floors := sql_max (map r_floor (tbl_rooms db)) in
  let! idxs := py_range no_floors in
  let '(result, fls) := fold_left create_floor idxs (result, []) in
  let! st := for_each (create_room fls) (tbl_rooms db) (result, ∅) in
  let '(result, room_dict) := st in
  let! result := for_each (create_device room_dict)
                          (map select_device_columns (tbl_devices db)) result in
  Ok (map_devices (load_state db) result).

(** [get_device_by_id]: [SELECT ... FROM devices WHERE id = ?], first row. *)
Definition get_device_by_id (db : database) (device_id : string)
  : option Device :=
  match fetchone (filter (fun d => String.eqb (d_id d) device_id)
                         (tbl_devices db)) with
  | Some row =>
      if String.eqb (d_category row) "sensor" then
        Some (Sensor (d_id row) (d_product row) (d_supplier row) (d_kind row))
      else if String.eqb (d_category row) "actuator" then
        Some (new_Actuator (d_id row) (d_product row) (d_supplier row)
                           (d_kind row))
      else None
  | None => None
  end.

(* ===================================================================== *)
(** * SQLite functions *)
(* ===================================================================== *)

(** [date(ts)] and [strftime('%Y-%m-%d', ts)] of a timestamp
    [YYYY-MM-DD HH:MM:SS]: its first ten characters.  (For other texts
    SQLite parses and normalises, or returns [NULL]; see [canonical_ts].) *)
Definition sql_date (ts : string) : string := substring 0 10 ts.

(** [strftime('%H', ts)]: the two digits of the hour. *)
Definition sql_hour (ts : string) : string := substring 11 2 ts.

Definition Qsum (xs : list Q) : Q := fold_right Qplus 0%Q xs.

(** [AVG(col)]: [NULL] over no rows; the quotient is kept in lowest terms.
    The mean is exact here, where SQLite computes it in binary64; the
    theorems on arbitrary tables use only that there is a mean exactly when
    there is a row. *)
Definition sql_avg (xs : list Q) : option Q :=
  match xs with
  | [] => None
  | _ => Some (Qred (Qsum xs / inject_Z (Z.of_nat (length xs))))
  end.

(** [v > a] in SQL, false when [a] is [NULL]. *)
Definition sql_gt (v : Q) (a : option Q) : bool :=
  match a with
  | None => false
  | Some a' => negb (Qle_bool v a')
  end.

(** The distinct values of a column, in order of first occurrence: the
    groups of [GROUP BY]. *)
Fixpoint distinct (xs : list string) : list string :=
  match xs with
  | [] => []
  | x :: xs' => x :: filter (fun y => negb (String.eqb y x)) (distinct xs')
  end.

(* ===================================================================== *)
(** * [calc_avg_temperatures_in_room] *)
(* ===================================================================== *)

(** [if from_date:] appends [AND m.ts >= ?]; [None] and the empty string add
    no condition. *)
Definition from_condition (from_date : option string) (ts : string) : bool :=
  match from_date with
  | None | Some "" => true
  | Some bound => String.leb bound ts
  end.

(** [if until_date:] appends [AND m.ts <= ?]. *)
Definition until_condition (until_date : option string) (ts : string) : bool :=
  match until_date with
  | None | Some "" => true
  | Some bound => String.leb ts bound
  end.

Definition temperature_unit : string :=
  String (ascii_of_nat 194) (String (ascii_of_nat 176) "C").

(** The rows of
    [measurements m JOIN devices d ON m.device = d.id JOIN rooms r ON d.room = r.id]
    that pass the [WHERE] clause; only [m] is used afterwards. *)
Definition temperature_rows (db : database) (name : string)
    (from_date until_date : option string) : list measurement_row :=
  flat_map (fun m =>
    flat_map (fun d =>
      if String.eqb (m_device m) (d_id d) then
        flat_map (fun r =>
          if Z.eqb (d_room d) (r_id r)
             && String.eqb (r_name r) name
             && String.eqb (m_unit m) temperature_unit
             && from_condition from_date (m_ts m)
             && until_condition until_date (m_ts m)
          then [m] else [])
          (tbl_rooms db)
      else [])
      (tbl_devices db))
    (tbl_measurements db).

(** [SELECT strftime('%Y-%m-%d', m.ts), AVG(m.value) ... GROUP BY
    strftime('%Y-%m-%d', m.ts)] *)
Definition daily_averages (rows : list measurement_row) : list (string * Q) :=
  flat_map (fun date =>
    match sql_avg (map m_value
                       (filter (fun m => String.eqb (sql_date (m_ts m)) date) rows)) with
    | Some a => [(date, a)]
    | None => []
    end)
    (distinct (map (fun m => sql_date (m_ts m)) rows)).

Definition calc_avg_temperatures_in_room (db : database) (room : Room)
    (from_date until_date : option string) : gmap string Q :=
  let rows := daily_averages
                (temperature_rows db (room_name room) from_date until_date) in
  fold_left (fun avg_temperatures row => <[fst row := snd row]> avg_temperatures)
            rows ∅.

(* ===================================================================== *)
(** * [calc_hours_with_humidity_above] *)
(* ===================================================================== *)

(** The value of a decimal digit. *)
Definition digit_value (c : ascii) : option Z :=
  let n := Z.of_nat (nat_of_ascii c) in
  if (48 <=? n) && (n <=? 57) then Some (n - 48) else None.

Fixpoint digits_value (acc : Z) (s : string) : option Z :=
  match s with
  | EmptyString => Some acc
  | String c s' =>
      match digit_value c with
      | Some v => digits_value (10 * acc + v) s'
      | None => None
      end
  end.

(** [int(s)] of a string of decimal digits, the only strings the hour column
    holds. *)
Definition py_int (s : string) : result Z :=
  match s with
  | EmptyString => Raise (ValueError "invalid literal for int()")
  | _ =>
      match digits_value 0 s with
      | Some v => Ok v
      | None => Raise (ValueError "invalid literal for int()")
      end
  end.

(** [sorted(l)] on integers. *)
Definition sorted (l : list Z) : list Z := merge_sort Z.le l.

(** A row of the inner [SELECT]: [hour], [value], [avg_humidity]. *)
Record humidity_row := {
  h_hour : string;
  h_value : Q;
  h_avg_humidity : option Q
}.

Definition humidity_kind : string := "Humidity Sensor".

(** The correlated subquery: the average over the humidity measurements of
    the same hour, room, unit and date as the measurement [m] of device
    [d]. *)
Definition avg_humidity (db : database) (m : measurement_row) (d : device_row)
  : option Q :=
  sql_avg
    (flat_map (fun m2 =>
       flat_map (fun d2 =>
         if String.eqb (m_device m2) (d_id d2)
            && String.eqb (sql_hour (m_ts m2)) (sql_hour (m_ts m))
            && Z.eqb (d_room d2) (d_room d)
            && String.eqb (m_unit m2) (m_unit m)
            && String.eqb (sql_date (m_ts m2)) (sql_date (m_ts m))
            && String.eqb (d_kind d2) humidity_kind
         then [m_value m2] else [])
         (tbl_devices db))
       (tbl_measurements db)).

(** The inner [SELECT] over [measurements INNER JOIN devices]. *)
Definition humidity_subquery (db : database) (room_id : Z) (date : string)
  : list humidity_row :=
  flat_map (fun m =>
    flat_map (fun d =>
      if String.eqb (m_device m) (d_id d)
         && Z.eqb (d_room d) room_id
         && String.eqb (m_unit m) "%"
         && String.eqb (sql_date (m_ts m)) date
         && String.eqb (d_kind d) humidity_kind
      then [ {| h_hour := sql_hour (m_ts m); h_value := m_value m;
                h_avg_humidity := avg_humidity db m d |} ]
      else [])
      (tbl_devices db))
    (tbl_measurements db).

(** [GROUP BY hour HAVING COUNT( * ) > 3]: the hours with their counts. *)
Definition group_by_hour_having (rows : list humidity_row) : list (string * Z) :=
  flat_map (fun hour =>
    let count :=
      Z.of_nat (length (filter (fun row => String.eqb (h_hour row) hour) rows)) in
    if 3 <? count then [(hour, count)] else [])
    (distinct (map h_hour rows)).

(** [hour IN ('07', '08', '09', '12', '18')] *)
Definition hour_in_list (hour : string) : bool :=
  existsb (String.eqb hour) ["07"; "08"; "09"; "12"; "18"].

Definition calc_hours_with_humidity_above (db : database) (room : Room)
    (date : string) : result (list Z) :=
  let room_id_result :=
    fetchone (filter (fun r => String.eqb (r_name r) (room_name room))
                     (tbl_rooms db)) in
  match room_id_result with
  | None => Raise (ValueError ("No room found with name " ++ room_name room)%string)
  | Some row =>
      let room_id := r_id row in
      let rows :=
        group_by_hour_having
          (filter (fun row => hour_in_list (h_hour row)
                              && sql_gt (h_value row) (h_avg_humidity row))
                  (humidity_subquery db room_id date)) in
      let! hours_with_high_humidity :=
        map_result (fun row => py_int (fst row)) rows in
      Ok (sorted hours_with_high_humidity)
  end.

(** The query as the documentation words it: every observed hour of the day
    is a candidate, not only those of the list in the [WHERE] clause. *)
Definition hours_with_humidity_above_documented (db : database) (room : Room)
    (date : string) : result (list Z) :=
  match fetchone (filter (fun r => String.eqb (r_name r) (room_name room))
                         (tbl_rooms db)) with
  | None => Raise (ValueError ("No room found with name " ++ room_name room)%string)
  | Some row =>
      let rows :=
        group_by_hour_having
          (filter (fun row => sql_gt (h_value row) (h_avg_humidity row))
                  (humidity_subquery db (r_id row) date)) in
      let! hours := map_result (fun row => py_int (fst row)) rows in
      Ok (sorted hours)
  end.

(* ===================================================================== *)
(** * The measurement store *)
(* ===================================================================== *)

(** Modelled from the spec: the class [Measurement] of [smarthouse.domain],
    built as [Measurement(timestamp, value, unit)]; [api.py] reads these
    three attributes. *)
Record Measurement := {
  ms_timestamp : string;
  ms_value : Q;
  ms_unit : string
}.

(** The request body [NewSensorMeasurement] of [api.py]: [value], [unit]. *)
Record NewSensorMeasurement := {
  nm_value : Q;
  nm_unit : string
}.

Definition with_measurements (db : database) (ms : list measurement_row)
  : database :=
  {| tbl_rooms := tbl_rooms db; tbl_devices := tbl_devices db;
     tbl_measurements := ms; tbl_states := tbl_states db |}.

(** [add_measurement_to_sensor]: [INSERT INTO measurements ... VALUES (?, ?,
    ?, datetime('now'))]; [now] is what the clock gives.  The new row is the
    last of the relation. *)
Definition add_measurement_to_sensor (db : database) (sensor_id : string)
    (measurement : NewSensorMeasurement) (now : string) : database :=
  with_measurements db
    (tbl_measurements db
     ++ [ {| m_device := sensor_id; m_value := nm_value measurement;
             m_unit := nm_unit measurement; m_ts := now |} ]).

(** The rows of [measurements] with their [rowid], here the position. *)
Definition with_rowid (rows : list measurement_row)
  : list (nat * measurement_row) :=
  imap (fun i row => (i, row)) rows.

(** [ORDER BY ts ... LIMIT 1]: the row whose timestamp comes before all the
    others in the order asked for.  Among rows of equal timestamp SQLite
    fixes no choice; the row met first is taken here. *)
Fixpoint pick_first (before : string -> string -> bool)
    (best : nat * measurement_row) (rows : list (nat * measurement_row))
  : nat * measurement_row :=
  match rows with
  | [] => best
  | r :: rows' =>
      pick_first before
        (if before (m_ts (snd r)) (m_ts (snd best)) then r else best) rows'
  end.

Definition order_by_ts_limit_1 (before : string -> string -> bool)
    (rows : list (nat * measurement_row)) : option (nat * measurement_row) :=
  match rows with
  | [] => None
  | r :: rows' => Some (pick_first before r rows')
  end.

(** [ORDER BY ts ASC] and [ORDER BY ts DESC] on text. *)
Definition ts_asc (a b : string) : bool := String.ltb a b.
Definition ts_desc (a b : string) : bool := String.ltb b a.

(** [SELECT ... FROM measurements WHERE device = ?] with the [rowid]. *)
Definition measurements_of (db : database) (sensor_id : string)
  : list (nat * measurement_row) :=
  filter (fun r => String.eqb (m_device (snd r)) sensor_id)
         (with_rowid (tbl_measurements db)).

(** [delete_oldest_measurement]: [DELETE FROM measurements WHERE rowid IN
    (SELECT rowid ... WHERE device = ? ORDER BY ts ASC LIMIT 1)]. *)
Definition delete_oldest_measurement (db : database) (sensor_id : string)
  : database :=
  match order_by_ts_limit_1 ts_asc (measurements_of db sensor_id) with
  | Some (rowid, _) =>
      with_measurements db (delete rowid (tbl_measurements db))
  | None => db
  end.

(** [get_latest_reading(sensor)]: [SELECT value, unit, ts ... WHERE device = ?
    ORDER BY ts DESC LIMIT 1]; of [sensor] only the [id] is used. *)
Definition get_latest_reading (db : database) (sensor : Device)
  : option Measurement :=
  match order_by_ts_limit_1 ts_desc (measurements_of db (dev_id sensor)) with
  | Some (_, latest_reading) =>
      Some {| ms_timestamp := m_ts latest_reading;
              ms_value := m_value latest_reading;
              ms_unit := m_unit latest_reading |}
  | None => None
  end.

(* ===================================================================== *)
(** * The endpoints of [api.py] *)
(* ===================================================================== *)

(** What an endpoint gives: a response body, or the [HTTPException] it
    raises. *)
Inductive http (A : Type) : Type :=
| Response (body : A)
| HTTPException (status_code : Z) (detail : string).
Arguments Response {A} body.
Arguments HTTPException {A} status_code detail.

(** Modelled from the spec: [isinstance(dev, Sensor)] holds of the variants
    that produce measurements, [Sensor] and [ActuatorWithSensor]. *)
Definition isinstance_Sensor (d : Device) : bool :=
  match d with
  | Actuator _ _ _ _ _ => false
  | _ => true
  end.

(** [GET /smarthouse/sensor/{uuid}/current]; a device object and a
    [Measurement] object count as true in [if not ...]. *)
Definition get_current_sensor_measurement (db : database) (uuid : string)
  : http Measurement :=
  match get_device_by_id db uuid with
  | Some sensor =>
      if isinstance_Sensor sensor then
        match get_latest_reading db sensor with
        | Some latest_reading => Response latest_reading
        | None => HTTPException 404 "Latest reading not found"
        end
      else HTTPException 404 "Sensor not found"
  | None => HTTPException 404 "Sensor not found"
  end.

(** [POST /smarthouse/sensor/{uuid}/current]; the database after the call
    and the response. *)
Definition add_measurement_for_sensor (db : database) (uuid : string)
    (measurement : NewSensorMeasurement) (now : string)
  : database * http string :=
  match get_device_by_id db uuid with
  | Some sensor =>
      if isinstance_Sensor sensor then
        (add_measurement_to_sensor db (dev_id sensor) measurement now,
         Response "Measurement added successfully")
      else (db, HTTPException 404 "Sensor not found")
  | None => (db, HTTPException 404 "Sensor not found")
  end.

(** [GET /smarthouse/sensor/{uuid}/values]: the latest measurement alone, in
    a list; the response model [CurrentSensorMeasurement] has the three
    fields of [Measurement]. *)
Definition get_latest_sensor_measurements (db : database) (uuid : string)
  : http (list Measurement) :=
  match get_device_by_id db uuid with
  | Some sensor =>
      if isinstance_Sensor sensor then
        match get_latest_reading db sensor with
        | Some latest_measurement =>
            Response [ {| ms_timestamp := ms_timestamp latest_measurement;
                          ms_value := ms_value latest_measurement;
                          ms_unit := ms_unit latest_measurement |} ]
        | None => Response []
        end
      else HTTPException 404 "Sensor not found"
  | None => HTTPException 404 "Sensor not found"
  end.

(** [DELETE /smarthouse/sensor/{uuid}/oldest] *)
Definition delete_oldest_measurement_for_sensor (db : database) (uuid : string)
  : database * http string :=
  match get_device_by_id db uuid with
  | Some sensor =>
      if isinstance_Sensor sensor then
        (delete_oldest_measurement db (dev_id sensor),
         Response "Oldest measurement deleted successfully")
      else (db, HTTPException 404 "Sensor not found")
  | None => (db, HTTPException 404 "Sensor not found")
  end.

(** The response model [FloorModel]: [level], names of the [rooms]. *)
Record FloorModel := {
  fm_level : Z;
  fm_rooms : list string
}.

(** [GET /smarthouse/floor/{fid}] on the loaded house: the first floor of
    that level. *)
Definition get_floor (smarthouse : SmartHouse) (fid : Z) : http FloorModel :=
  match head (filter (fun f => Z.eqb (level f) fid) (floors smarthouse)) with
  | Some floor =>
      Response {| fm_level := level floor;
                  fm_rooms := map room_name (rooms floor) |}
  | None => HTTPException 404 "Floor not found"
  end.

(* ===================================================================== *)
(** * Notions used in the statements *)
(* ===================================================================== *)

(** The position in [floors] that [floors[floor - 1]] designates when there
    are [n] floors: a floor number below 1 counts from the top. *)
Definition floor_position (n floor : Z) : Z :=
  if floor - 1 <? 0 then floor - 1 + n else floor - 1.

(** What of a room comes from its row: name, size and [db_id]. *)
Definition room_entry (r : Room) : string * Q * option Z :=
  (room_name r, room_size r, db_id r).

Definition row_entry (row : room_row) : string * Q * option Z :=
  (r_name row, r_area row, Some (r_id row)).

(** [ORDER BY ts ... LIMIT 1] on the rows alone, without their [rowid]. *)
Fixpoint pick_row (before : string -> string -> bool)
    (best : measurement_row) (rows : list measurement_row) : measurement_row :=
  match rows with
  | [] => best
  | r :: rows' =>
      pick_row before (if before (m_ts r) (m_ts best) then r else best) rows'
  end.

(** The rows of [measurements] of one device, in row order. *)
Definition rows_of (db : database) (sensor_id : string) : list measurement_row :=
  filter (fun r => String.eqb (m_device r) sensor_id) (tbl_measurements db).

(** The levels of the floors with what their rooms have from the rows. *)
Definition skeleton (sh : SmartHouse) : list (Z * list (string * Q * option Z)) :=
  map (fun fl => (level fl, map room_entry (rooms fl))) (floors sh).

(** One more room on a floor of the skeleton. *)
Definition add_entry (e : string * Q * option Z)
    (p : Z * list (string * Q * option Z)) : Z * list (string * Q * option Z) :=
  (fst p, snd p ++ [e]).

(** The position of the floor a room row is put on, with [n] floors. *)
Definition row_position (n : nat) (row : room_row) : nat :=
  Z.to_nat (floor_position (Z.of_nat n) (r_floor row)).


(** The query for the state of an actuator is built by pasting [dev.id]
    between two quote characters.  The text is the lookup of [load_state]
    when the id holds no quote character, which would end the literal, and
    no NUL character, which [execute] refuses in a statement. *)
Definition is_quote (c : ascii) : bool := Ascii.eqb c "'"%char.

Definition is_nul (c : ascii) : bool := Ascii.eqb c Ascii.zero.

Fixpoint plain_literal (s : string) : bool :=
  match s with
  | EmptyString => true
  | String c s' => negb (is_quote c) && negb (is_nul c) && plain_literal s'
  end.

(** The id of every device row of category ['actuator'] is plain: these are
    the rows for which the loader runs the state query. *)
Definition actuator_ids_plain (db : database) : bool :=
  forallb (fun d => negb (String.eqb (d_category d) "actuator")
                    || plain_literal (d_id d))
          (tbl_devices db).

(** A timestamp as [datetime('now')] writes it: [YYYY-MM-DD HH:MM:SS] with a
    date of the calendar and a time of day below 24:00:00.  On such a text
    SQLite's [date] and [strftime] return the characters [sql_date] and
    [sql_hour] take. *)
Definition two_digits (a b : ascii) : option Z :=
  match digit_value a, digit_value b with
  | Some x, Some y => Some (10 * x + y)
  | _, _ => None
  end.

Definition leap_year (y : Z) : bool :=
  (y mod 4 =? 0) && (negb (y mod 100 =? 0) || (y mod 400 =? 0)).

Definition days_in_month (y m : Z) : Z :=
  if m =? 2 then (if leap_year y then 29 else 28)
  else if (m =? 4) || (m =? 6) || (m =? 9) || (m =? 11) then 30
  else 31.

Definition canonical_ts (ts : string) : bool :=
  match list_ascii_of_string ts with
  | [y1; y2; y3; y4; d1; m1; m2; d2; a1; a2; sp; h1; h2; c1; i1; i2; c2; s1; s2] =>
      match two_digits y1 y2, two_digits y3 y4, two_digits m1 m2,
            two_digits a1 a2, two_digits h1 h2, two_digits i1 i2,
            two_digits s1 s2 with
      | Some yh, Some yl, Some month, Some day, Some hour, Some minute,
        Some second =>
          Ascii.eqb d1 "-" && Ascii.eqb d2 "-" && Ascii.eqb sp " "
          && Ascii.eqb c1 ":" && Ascii.eqb c2 ":"
          && (1 <=? month) && (month <=? 12)
          && (1 <=? day) && (day <=? days_in_month (100 * yh + yl) month)
          && (hour <=? 23) && (minute <=? 59) && (second <=? 59)
      | _, _, _, _, _, _, _ => false
      end
  | _ => false
  end.

(** A row of the join [measurements INNER JOIN devices] that the inner query
    of [calc_hours_with_humidity_above] keeps for a room and a date, in a
    given hour. *)
Definition humidity_pair (room_id : Z) (date hour : string)
    (p : measurement_row * device_row) : bool :=
  String.eqb (m_device (fst p)) (d_id (snd p))
  && Z.eqb (d_room (snd p)) room_id
  && String.eqb (m_unit (fst p)) "%"
  && String.eqb (sql_date (m_ts (fst p))) date
  && String.eqb (d_kind (snd p)) humidity_kind
  && String.eqb (sql_hour (m_ts (fst p))) hour.

(** The devices the loader makes of the device rows, in row order. *)
Definition devices_of_rows (db : database) : list Device :=
  flat_map (fun d => match device_of_tuple (select_device_columns d) with
                     | Some dev => [dev]
                     | None => []
                     end)
           (tbl_devices db).

(* ===================================================================== *)
(** * Example databases *)
(* ===================================================================== *)

Module Examples.

Definition room1 : room_row :=
  {| r_id := 1; r_floor := 1; r_area := 10%Q; r_name := "Bathroom" |}.

Definition room3 : room_row :=
  {| r_id := 2; r_floor := 3; r_area := 12%Q; r_name := "Attic" |}.

Definition device (i : string) (room : Z) (kind category : string)
  : device_row :=
  {| d_id := i; d_room := room; d_kind := kind; d_category := category;
     d_supplier := "Acme"; d_product := "X1"; d_state := None |}.

Definition measurement (dev : string) (v : Q) (unit ts : string)
  : measurement_row :=
  {| m_device := dev; m_value := v; m_unit := unit; m_ts := ts |}.

Definition bathroom : Room :=
  {| room_size := 10%Q; room_name := "Bathroom"; db_id := Some 1;
     devices := [] |}.

Definition garage : Room :=
  {| room_size := 20%Q; room_name := "Garage"; db_id := None;
     devices := [] |}.

(** Five humidity measurements in one hour, four of them above the mean of
    the hour (83.2); the hour is [hour]. *)
Definition db_humidity (hour : string) : database :=
  let ts (minute : string) := ("2024-01-27 " ++ hour ++ ":" ++ minute ++ ":00")%string in
  {| tbl_rooms := [room1];
     tbl_devices := [device "h1" 1 "Humidity Sensor" "sensor"];
     tbl_measurements :=
       [measurement "h1" 50%Q "%" (ts "05");
        measurement "h1" 90%Q "%" (ts "15");
        measurement "h1" 91%Q "%" (ts "25");
        measurement "h1" 92%Q "%" (ts "35");
        measurement "h1" 93%Q "%" (ts "45")];
     tbl_states := [] |}.

(** Two temperature measurements, 20.0 and 22.0, on one day. *)
Definition db_temperature : database :=
  {| tbl_rooms := [room1];
     tbl_devices := [device "t1" 1 "Temperature Sensor" "sensor"];
     tbl_measurements :=
       [measurement "t1" 20%Q temperature_unit "2024-01-27 10:00:00";
        measurement "t1" 22%Q temperature_unit "2024-01-27 14:00:00"];
     tbl_states := [] |}.

(** No rooms at all. *)
Definition db_no_rooms : database :=
  {| tbl_rooms := []; tbl_devices := []; tbl_measurements := [];
     tbl_states := [] |}.

(** A heat pump, a plain actuator and a sensor, with stored states: the
    heat pump at level 0.999, the plain actuator at 1.0. *)
Definition db_house : database :=
  {| tbl_rooms := [room1; room3];
     tbl_devices :=
       [device "hp" 1 "Heat Pump" "actuator";
        device "plug" 2 "Smart Plug" "actuator";
        device "t1" 1 "Temperature Sensor" "sensor"];
     tbl_measurements := [];
     tbl_states :=
       [ {| s_device := "hp"; s_state := Some (999 # 1000) |};
         {| s_device := "plug"; s_state := Some 1%Q |} ] |}.

Definition heat_pump_loaded : Device :=
  ActuatorWithSensor "hp" "X1" "Acme" "Heat Pump" (OnWithLevel (999 # 1000)).

(** The house [load_smarthouse_deep] returns for [db_house]: three floors,
    the second without rooms. *)
Definition house_loaded : SmartHouse :=
  {| floors :=
       [ {| level := 1;
            rooms :=
              [ {| room_size := 10%Q; room_name := "Bathroom"; db_id := Some 1;
                   devices :=
                     [heat_pump_loaded;
                      Sensor "t1" "X1" "Acme" "Temperature Sensor"] |} ] |};
         {| level := 2; rooms := [] |};
         {| level := 3;
            rooms :=
              [ {| room_size := 12%Q; room_name := "Attic"; db_id := Some 2;
                   devices :=
                     [Actuator "plug" "X1" "Acme" "Smart Plug" On] |} ] |} ] |}.

(** A device row whose room id is not in [rooms]. *)
Definition db_dangling : database :=
  {| tbl_rooms := [room1];
     tbl_devices := [device "t1" 1 "Temperature Sensor" "sensor";
                     device "x" 99 "Smart Plug" "actuator"];
     tbl_measurements := [];
     tbl_states := [] |}.

End Examples.

Module Fixtures.

Definition reading (v : Q) : NewSensorMeasurement :=
  {| nm_value := v; nm_unit := temperature_unit |}.

Definition sensor_t1 : Device :=
  Sensor "t1" "X1" "Acme" "Temperature Sensor".

(** The house database with three measurements of sensor [t1] and one of
    another device. *)
Definition db_measured : database :=
  {| tbl_rooms := tbl_rooms Examples.db_house;
     tbl_devices := tbl_devices Examples.db_house;
     tbl_measurements :=
       [Examples.measurement "t1" 21%Q temperature_unit "2024-01-27 10:00:00";
        Examples.measurement "hp" 30%Q temperature_unit "2024-01-27 09:00:00";
        Examples.measurement "t1" 19%Q temperature_unit "2024-01-26 10:00:00";
        Examples.measurement "t1" 20%Q temperature_unit "2024-01-27 08:00:00"];
     tbl_states := tbl_states Examples.db_house |}.

(** One room, on floor 0. *)
Definition db_cellar : database :=
  {| tbl_rooms := [ {| r_id := 1; r_floor := 0; r_area := 10%Q;
                       r_name := "Cellar" |} ];
     tbl_devices := []; tbl_measurements := []; tbl_states := [] |}.

(** Rooms on floors 2 and 0, and one on floor -1: with two floors, floor 0
    is the position of floor 2 and floor -1 that of floor 1. *)
Definition db_below_ground : database :=
  {| tbl_rooms :=
       [ {| r_id := 1; r_floor := 2; r_area := 10%Q; r_name := "Loft" |};
         {| r_id := 2; r_floor := 0; r_area := 12%Q; r_name := "Cellar" |};
         {| r_id := 3; r_floor := -1; r_area := 8%Q; r_name := "Vault" |} ];
     tbl_devices := []; tbl_measurements := []; tbl_states := [] |}.

(** Rooms on floors 2 and -2: with two floors, [floors[-3]] does not
    exist. *)
Definition db_floor_out_of_range : database :=
  {| tbl_rooms :=
       [ {| r_id := 1; r_floor := 2; r_area := 10%Q; r_name := "Loft" |};
         {| r_id := 2; r_floor := -2; r_area := 8%Q; r_name := "Vault" |} ];
     tbl_devices := []; tbl_measurements := []; tbl_states := [] |}.

Definition top_floor_below_ground : Floor :=
  {| level := 2;
     rooms :=
       [ {| room_size := 10%Q; room_name := "Loft"; db_id := Some 1;
            devices := [] |};
         {| room_size := 12%Q; room_name := "Cellar"; db_id := Some 2;
            devices := [] |} ] |}.

(** The house the loader returns for [db_below_ground]. *)
Definition house_below_ground : SmartHouse :=
  {| floors :=
       [ {| level := 1;
            rooms :=
              [ {| room_size := 8%Q; room_name := "Vault"; db_id := Some 3;
                   devices := [] |} ] |};
         top_floor_below_ground ] |}.

End Fixtures.

(* ===================================================================== *)
(** * Actuator state written to and read from [devices] *)
(* ===================================================================== *)

Lemma select_update_state_column actuator_id v d :
  select_device_columns (update_state_column actuator_id v d)
  = select_device_columns d.
Proof.
  unfold update_state_column.
  destruct (String.eqb (d_id d) actuator_id); reflexivity.
Qed.

Lemma d_id_update_state_column actuator_id v d :
  d_id (update_state_column actuator_id v d) = d_id d.
Proof.
  unfold update_state_column.
  destruct (String.eqb (d_id d) actuator_id); reflexivity.
Qed.

Lemma select_columns_after_update db actuator_id new_state :
  map select_device_columns
      (tbl_devices (update_actuator_state db actuator_id new_state))
  = map select_device_columns (tbl_devices db).
Proof.
  simpl. induction (tbl_devices db) as [|d ds IH]; simpl.
  - reflexivity.
  - now rewrite select_update_state_column, IH.
Qed.






(* ===================================================================== *)
(** * What [update_actuator_state] leaves alone *)
(* ===================================================================== *)

(** C5.  [update_actuator_state] changes nothing but the [state] column of
    [devices]: [states], [rooms] and [measurements] are the same relations and
    the other columns of [devices] are the same; so [load_smarthouse_deep],
    which decodes actuator states from [states], returns after the write what
    it returned before it. *)
Theorem C5_update_leaves_states_relation (db : database) (actuator_id : string)
    (new_state : ActuatorState) :
  let db' := update_actuator_state db actuator_id new_state in
  tbl_states db' = tbl_states db
  /\ tbl_rooms db' = tbl_rooms db
  /\ tbl_measurements db' = tbl_measurements db
  /\ map select_device_columns (tbl_devices db')
     = map select_device_columns (tbl_devices db)
  /\ (forall dev, load_state db' dev = load_state db dev)
  /\ load_smarthouse_deep db' = load_smarthouse_deep db.
Proof.
  intros db'. repeat split.
  - apply select_columns_after_update.
  - subst db'. unfold load_smarthouse_deep.
    rewrite (select_columns_after_update db actuator_id new_state).
    reflexivity.
Qed.

(* ===================================================================== *)
(** * The two aggregation queries on concrete data *)
(* ===================================================================== *)

(** C1 (the code departs from it).  Five humidity measurements in hour 10,
    four of them above the mean of that hour: the hour qualifies, and the
    query worded as the documentation has it returns [[10]], but
    [calc_hours_with_humidity_above] returns no hour, because 10 is not in the
    list of hours of its [WHERE] clause.  The same measurements in hour 07,
    which is in the list, are reported. *)
Theorem C1_hour_outside_list_not_reported :
  calc_hours_with_humidity_above
    (Examples.db_humidity "10") Examples.bathroom "2024-01-27" = Ok []
  /\ hours_with_humidity_above_documented
       (Examples.db_humidity "10") Examples.bathroom "2024-01-27" = Ok [10]
  /\ calc_hours_with_humidity_above
       (Examples.db_humidity "07") Examples.bathroom "2024-01-27" = Ok [7].
Proof.
  repeat split; vm_compute; reflexivity.
Qed.

(** C2 (the code departs from it).  Two temperature measurements, 20.0 and
    22.0, at 10:00 and 14:00 of 2024-01-27.  With that date as both bounds the
    result is empty: the timestamp text ["2024-01-27 10:00:00"] is greater
    than the bound text ["2024-01-27"], so [m.ts <= ?] drops every measurement
    of the last day.  Without the upper bound the day is there with its mean,
    21.0. *)
Theorem C2_until_date_day_dropped :
  calc_avg_temperatures_in_room Examples.db_temperature Examples.bathroom
    (Some "2024-01-27") (Some "2024-01-27") = ∅
  /\ calc_avg_temperatures_in_room Examples.db_temperature Examples.bathroom
       (Some "2024-01-27") None = {[ "2024-01-27" := 21%Q ]}
  /\ until_condition (Some "2024-01-27") "2024-01-27 10:00:00" = false
  /\ until_condition (Some "2024-01-27") "2024-01-27 00:00:00" = false.
Proof.
  repeat split; vm_compute; reflexivity.
Qed.

(* ===================================================================== *)
(** * Loading with no rooms *)
(* ===================================================================== *)

(** C3 (as stated, refuted).  With no room rows [load_smarthouse_deep]
    raises, but the exception is the [TypeError] of [range(0, None)], not an
    [EmptyStructureError]. *)
Lemma C3_no_rooms_is_TypeError :
  tbl_rooms Examples.db_no_rooms = []
  /\ load_smarthouse_deep Examples.db_no_rooms = Raise TypeError
  /\ ~ (exists e, load_smarthouse_deep Examples.db_no_rooms = Raise e
                  /\ exn_class e = "EmptyStructureError").
Proof.
  repeat split.
  intros (e & He & Hc). vm_compute in He. inversion He; subst. discriminate.
Qed.

(** C3 (amended).  If [rooms] has no rows, [load_smarthouse_deep] returns no
    house: [MAX(floor)] is [NULL] and [range(0, None)] raises [TypeError]. *)
Theorem C3_no_rooms_raises (db : database) :
  tbl_rooms db = [] ->
  load_smarthouse_deep db = Raise TypeError
  /\ (forall sh, load_smarthouse_deep db <> Ok sh).
Proof.
  intros Hrooms. unfold load_smarthouse_deep. rewrite Hrooms. simpl.
  split; [reflexivity | discriminate].
Qed.

Lemma C3_no_rooms_raises_witness :
  load_smarthouse_deep Examples.db_no_rooms = Raise TypeError.
Proof.
  apply (C3_no_rooms_raises Examples.db_no_rooms). reflexivity.
Defined.

(* ===================================================================== *)
(** * The humidity query on an unknown room and on a room without data *)
(* ===================================================================== *)

Lemma flat_map_nil {A B} (f : A -> list B) (l : list A) :
  (forall x, In x l -> f x = []) -> flat_map f l = [].
Proof.
  induction l as [|x l IH]; simpl; intros H; [reflexivity|].
  rewrite (H x (or_introl eq_refl)), IH; [reflexivity|].
  intros y Hy. apply H. now right.
Qed.

Lemma fetchone_filter_none {A} (p : A -> bool) (l : list A) :
  (forall x, In x l -> p x = false) -> fetchone (filter (fun x => p x) l) = None.
Proof.
  induction l as [|x l IH]; intros H; [reflexivity|].
  rewrite filter_cons. destruct (decide (p x)) as [E|E].
  - rewrite (H x (or_introl eq_refl)) in E. destruct E.
  - apply IH. intros y Hy. apply H. now right.
Qed.

Lemma humidity_subquery_no_data db room_id date :
  (forall m d,
      In m (tbl_measurements db) -> In d (tbl_devices db) ->
      m_device m = d_id d -> d_room d = room_id -> m_unit m = "%" ->
      sql_date (m_ts m) = date -> d_kind d = humidity_kind -> False) ->
  humidity_subquery db room_id date = [].
Proof.
  intros Hno. unfold humidity_subquery.
  apply flat_map_nil. intros m Hm. apply flat_map_nil. intros d Hd.
  destruct (String.eqb_spec (m_device m) (d_id d)) as [E1|]; [|reflexivity].
  destruct (Z.eqb_spec (d_room d) room_id) as [E2|]; [|reflexivity].
  destruct (String.eqb_spec (m_unit m) "%") as [E3|]; [|reflexivity].
  destruct (String.eqb_spec (sql_date (m_ts m)) date) as [E4|]; [|reflexivity].
  destruct (String.eqb_spec (d_kind d) humidity_kind) as [E5|]; [|reflexivity].
  exfalso. eapply Hno; eauto.
Qed.

(** C7 (as stated, refuted).  For a room name that is not stored the query
    does raise, but the exception is the [ValueError] of its explicit
    [raise], not an [UnknownRoomError]. *)
Lemma C7_unknown_room_is_ValueError :
  calc_hours_with_humidity_above
    (Examples.db_humidity "10") Examples.garage "2024-01-27"
  = Raise (ValueError "No room found with name Garage")
  /\ ~ (exists e,
          calc_hours_with_humidity_above
            (Examples.db_humidity "10") Examples.garage "2024-01-27" = Raise e
          /\ exn_class e = "UnknownRoomError").
Proof.
  split; [reflexivity|].
  intros (e & He & Hc). vm_compute in He. inversion He; subst. discriminate.
Qed.

(** C7 (amended).  For a room name that no row of [rooms] has,
    [calc_hours_with_humidity_above] raises [ValueError] ("No room found with
    name ...") and returns no list; for a stored room with no humidity
    measurement on that date it returns the empty list and does not raise. *)
Theorem C7_unknown_room_raises (db : database) (room : Room) (date : string) :
  ((forall r, In r (tbl_rooms db) -> r_name r <> room_name room) ->
   calc_hours_with_humidity_above db room date
   = Raise (ValueError ("No room found with name " ++ room_name room)%string))
  /\ (forall row,
        fetchone (filter (fun r => String.eqb (r_name r) (room_name room))
                         (tbl_rooms db)) = Some row ->
        (forall m d,
            In m (tbl_measurements db) -> In d (tbl_devices db) ->
            m_device m = d_id d -> d_room d = r_id row -> m_unit m = "%" ->
            sql_date (m_ts m) = date -> d_kind d = humidity_kind -> False) ->
        calc_hours_with_humidity_above db room date = Ok []).
Proof.
  split.
  - intros Hno. unfold calc_hours_with_humidity_above.
    rewrite (fetchone_filter_none
               (fun r => String.eqb (r_name r) (room_name room))); [reflexivity|].
    intros r Hr. apply String.eqb_neq. now apply Hno.
  - intros row Hrow Hno. unfold calc_hours_with_humidity_above.
    rewrite Hrow. rewrite (humidity_subquery_no_data _ _ _ Hno). reflexivity.
Qed.

Lemma C7_unknown_room_raises_witness :
  calc_hours_with_humidity_above
    (Examples.db_humidity "10") Examples.garage "2024-01-27"
  = Raise (ValueError "No room found with name Garage")
  /\ calc_hours_with_humidity_above
       (Examples.db_humidity "10") Examples.bathroom "2024-01-28" = Ok [].
Proof.
  split.
  - apply (proj1 (C7_unknown_room_raises
                    (Examples.db_humidity "10") Examples.garage "2024-01-27")).
    intros r [<-|[]]. discriminate.
  - apply (proj2 (C7_unknown_room_raises
                    (Examples.db_humidity "10") Examples.bathroom "2024-01-28")
                 Examples.room1).
    + reflexivity.
    + intros m d Hm _ _ _ _ Hdate _.
      simpl in Hm.
      repeat (destruct Hm as [<-|Hm]; [discriminate Hdate|]).
      destruct Hm.
Defined.

(* ===================================================================== *)
(** * The loops of [load_smarthouse_deep] *)
(* ===================================================================== *)

Section LoaderLoops.

(** ** Floor levels are set once, by [register_floor] *)

Lemma levels_alter (g : list Room -> list Room) (i : nat) (l : list Floor) :
  map level (alter (with_rooms g) i l) = map level l.
Proof.
  revert i. induction l as [|fl l IH]; intros [|i]; simpl; try reflexivity.
  f_equal. apply IH.
Qed.

Lemma levels_register_room sh fl size name :
  levels (fst (register_room sh fl size name)) = levels sh.
Proof. unfold levels. simpl. apply levels_alter. Qed.

Lemma levels_set_db_id sh room i : levels (set_db_id sh room i) = levels sh.
Proof. unfold levels. simpl. apply levels_alter. Qed.

Lemma levels_register_device sh room dev :
  levels (register_device sh room dev) = levels sh.
Proof. unfold levels. simpl. apply levels_alter. Qed.

Lemma levels_map_devices f sh : levels (map_devices f sh) = levels sh.
Proof.
  unfold levels, map_devices. simpl.
  induction (floors sh) as [|fl l IH]; simpl; [reflexivity|]. now rewrite IH.
Qed.

(** ** The loop that creates the floors *)

Lemma create_floors_from (n a : nat) (sh : SmartHouse) (fls : list floor_ref) :
  fold_left create_floor (map Z.of_nat (seq a n)) (sh, fls)
  = ({| floors :=
          floors sh
          ++ map (fun i => {| level := Z.of_nat i + 1; rooms := [] |}) (seq a n) |},
     fls ++ seq (length (floors sh)) n).
Proof.
  revert a sh fls. induction n as [|n IH]; intros a sh fls; simpl.
  - rewrite !app_nil_r. now destruct sh.
  - rewrite IH. simpl. rewrite length_app. simpl.
    rewrite Nat.add_1_r, <- !app_assoc. reflexivity.
Qed.

Lemma create_floors (n : nat) :
  fold_left create_floor (map Z.of_nat (seq 0 n)) (new_SmartHouse, [])
  = ({| floors := map (fun i => {| level := Z.of_nat i + 1; rooms := [] |})
                      (seq 0 n) |},
     seq 0 n).
Proof. now rewrite create_floors_from. Qed.

Lemma levels_created (n : nat) :
  map level (map (fun i => {| level := Z.of_nat i + 1; rooms := [] |}) (seq 0 n))
  = map Z.of_nat (seq 1 n).
Proof.
  rewrite map_map. simpl. rewrite <- seq_shift, map_map.
  apply map_ext. intros i. lia.
Qed.

(** ** [floors[k]] *)

Lemma py_getitem_seq (n : nat) (k : Z) :
  0 <= k < Z.of_nat n -> py_getitem (seq 0 n) k = Ok (Z.to_nat k).
Proof.
  intros Hk. unfold py_getitem. rewrite length_seq.
  destruct (Z.ltb_spec k 0) as [|_]; [lia|].
  destruct (Z.leb_spec 0 k) as [_|]; [|lia].
  destruct (Z.ltb_spec k (Z.of_nat n)) as [_|]; [|lia]. simpl.
  rewrite lookup_seq_lt by lia. reflexivity.
Qed.

Lemma py_getitem_raises {A} (l : list A) (k : Z) (e : exn) :
  py_getitem l k = Raise e -> e = IndexError.
Proof.
  unfold py_getitem.
  destruct (_ && _); [destruct (l !! _)|]; intros H; now inversion H.
Qed.

(** ** [MAX(floor)] *)

Lemma fold_max_spec (xs : list Z) (a : Z) :
  In (fold_left Z.max xs a) (a :: xs)
  /\ a <= fold_left Z.max xs a
  /\ (forall x, In x xs -> x <= fold_left Z.max xs a).
Proof.
  revert a. induction xs as [|x xs IH]; intros a; simpl.
  - repeat split; [now left | lia | intros ? []].
  - destruct (IH (Z.max a x)) as (Hin & Hge & Hall). repeat split.
    + destruct Hin as [<-|Hin]; [|now right; right].
      destruct (Z.max_spec a x) as [[_ ->]|[_ ->]]; [right; now left | now left].
    + lia.
    + intros y [<-|Hy]; [lia | now apply Hall].
Qed.

Lemma sql_max_is_maximum (xs : list Z) (n : Z) :
  In n xs -> (forall x, In x xs -> x <= n) -> sql_max xs = Some n.
Proof.
  destruct xs as [|a xs]; [intros []|]. intros Hin Hmax. simpl. f_equal.
  destruct (fold_max_spec xs a) as (Hin' & Hge & Hall).
  assert (fold_left Z.max xs a <= n) by now apply Hmax.
  assert (n <= fold_left Z.max xs a).
  { destruct Hin as [<-|Hin]; [exact Hge | now apply Hall]. }
  lia.
Qed.

(** ** The loop over the room rows *)

Lemma create_room_raises fls st row e :
  create_room fls st row = Raise e -> e = IndexError.
Proof.
  destruct st as [sh rd]. unfold create_room.
  destruct (py_getitem fls (r_floor row - 1)) eqn:E; simpl.
  - discriminate.
  - intros H. inversion H; subst. eapply py_getitem_raises; eauto.
Qed.

Lemma room_loop_raises fls rows st e :
  for_each (create_room fls) rows st = Raise e -> e = IndexError.
Proof.
  revert st. induction rows as [|row rows IH]; intros st; simpl.
  - discriminate.
  - destruct (create_room fls st row) eqn:E; simpl.
    + apply IH.
    + intros H. inversion H; subst. eapply create_room_raises; eauto.
Qed.

Lemma room_loop_invariant fls rows sh rd sh' rd' :
  for_each (create_room fls) rows (sh, rd) = Ok (sh', rd') ->
  levels sh' = levels sh
  /\ (forall k : Z,
        is_Some (rd' !! k) <-> is_Some (rd !! k) \/ In k (map r_id rows)).
Proof.
  revert sh rd. induction rows as [|row rows IH]; intros sh rd; simpl.
  - intros H. inversion H; subst. split; [reflexivity|]. tauto.
  - unfold create_room at 1.
    destruct (py_getitem fls (r_floor row - 1)) as [fl|]; simpl; [|discriminate].
    intros H. apply IH in H as [Hlev Hdom]. split.
    + rewrite Hlev, levels_set_db_id. apply levels_register_room.
    + intros k. rewrite Hdom, lookup_insert_is_Some.
      destruct (decide (r_id row = k)); tauto.
Qed.

Lemma room_loop_succeeds (n : nat) rows st :
  (forall r, In r rows -> 1 <= r_floor r <= Z.of_nat n) ->
  exists st', for_each (create_room (seq 0 n)) rows st = Ok st'.
Proof.
  revert st. induction rows as [|row rows IH]; intros [sh rd] Hfl; simpl.
  - eauto.
  - rewrite py_getitem_seq.
    2:{ specialize (Hfl row (or_introl eq_refl)). lia. }
    simpl. apply IH. intros r Hr. apply Hfl. now right.
Qed.

(** ** The loop over the device rows *)

Lemma device_loop_succeeds (rd : gmap Z room_ref) ts sh :
  (forall t, In t ts -> is_Some (rd !! t_room t)) ->
  exists sh', for_each (create_device rd) ts sh = Ok sh'
              /\ levels sh' = levels sh.
Proof.
  revert sh. induction ts as [|t ts IH]; intros sh Hdom; simpl.
  - eauto.
  - destruct (Hdom t (or_introl eq_refl)) as [room Hroom].
    unfold create_device at 1, py_dict_getitem. rewrite Hroom. simpl.
    destruct (device_of_tuple t) as [dev|]; simpl.
    + destruct (IH (register_device sh room dev)) as (sh' & Hrun & Hlev).
      { intros t' Ht'. apply Hdom. now right. }
      exists sh'. split; [exact Hrun|].
      rewrite Hlev. apply levels_register_device.
    + apply IH. intros t' Ht'. apply Hdom. now right.
Qed.

Lemma create_device_raises rd sh t e :
  create_device rd sh t = Raise e -> e = KeyError.
Proof.
  unfold create_device, py_dict_getitem.
  destruct (rd !! t_room t); simpl.
  - destruct (device_of_tuple t); discriminate.
  - intros H. now inversion H.
Qed.

Lemma device_loop_dangling (rd : gmap Z room_ref) ts sh t :
  In t ts -> rd !! t_room t = None ->
  for_each (create_device rd) ts sh = Raise KeyError.
Proof.
  revert sh. induction ts as [|t' ts IH]; intros sh; simpl; [intros []|].
  intros Hin Hnone.
  destruct (create_device rd sh t') as [sh'|e] eqn:E; simpl.
  - destruct Hin as [->|Hin].
    + unfold create_device, py_dict_getitem in E. rewrite Hnone in E.
      discriminate.
    + now apply IH.
  - f_equal. eapply create_device_raises; eauto.
Qed.

End LoaderLoops.

(* ===================================================================== *)
(** * [load_smarthouse_deep]: floors and room references *)
(* ===================================================================== *)

(** [load_smarthouse_deep] once [MAX(floor)] is known and the floors are
    created. *)
Lemma load_after_floors (db : database) (n : Z) :
  sql_max (map r_floor (tbl_rooms db)) = Some n ->
  load_smarthouse_deep db
  = (let! st := for_each (create_room (seq 0 (Z.to_nat n))) (tbl_rooms db)
                  ({| floors :=
                        map (fun i => {| level := Z.of_nat i + 1; rooms := [] |})
                            (seq 0 (Z.to_nat n)) |}, ∅) in
     let '(result, room_dict) := st in
     let! result := for_each (create_device room_dict)
                             (map select_device_columns (tbl_devices db)) result in
     Ok (map_devices (load_state db) result)).
Proof.
  intros Hmax. unfold load_smarthouse_deep. rewrite Hmax. simpl.
  rewrite create_floors. reflexivity.
Qed.

(** With at least one room and floor numbers from 1, the floors are created
    and the loop over the rooms succeeds, leaving every room id in
    [room_dict] and nothing else. *)
Lemma rooms_loaded (db : database) :
  tbl_rooms db <> [] ->
  (forall r, In r (tbl_rooms db) -> 1 <= r_floor r) ->
  exists n sh rd,
    sql_max (map r_floor (tbl_rooms db)) = Some n
    /\ for_each (create_room (seq 0 (Z.to_nat n))) (tbl_rooms db)
         ({| floors :=
               map (fun i => {| level := Z.of_nat i + 1; rooms := [] |})
                   (seq 0 (Z.to_nat n)) |}, ∅) = Ok (sh, rd)
    /\ levels sh = map Z.of_nat (seq 1 (Z.to_nat n))
    /\ (forall k : Z, is_Some (rd !! k) <-> In k (map r_id (tbl_rooms db))).
Proof.
  intros Hne Hfl.
  destruct (tbl_rooms db) as [|r0 rows] eqn:Erooms; [contradiction|].
  set (n := fold_left Z.max (map r_floor rows) (r_floor r0)).
  destruct (fold_max_spec (map r_floor rows) (r_floor r0)) as (_ & Hge & Hall).
  fold n in Hge, Hall.
  assert (Hbound : forall r, In r (r0 :: rows) -> 1 <= r_floor r <= Z.of_nat (Z.to_nat n)).
  { intros r Hr. split; [now apply Hfl|].
    assert (r_floor r <= n).
    { destruct Hr as [<-|Hr]; [exact Hge|]. apply Hall. now apply in_map. }
    lia. }
  destruct (room_loop_succeeds (Z.to_nat n) (r0 :: rows)
              ({| floors :=
                    map (fun i => {| level := Z.of_nat i + 1; rooms := [] |})
                        (seq 0 (Z.to_nat n)) |}, ∅) Hbound) as ([sh rd] & Hrun).
  exists n, sh, rd. split; [reflexivity|]. split; [exact Hrun|].
  apply room_loop_invariant in Hrun as [Hlev Hdom]. split.
  - rewrite Hlev. apply levels_created.
  - intros k. rewrite Hdom, lookup_empty, is_Some_alt. tauto.
Qed.

(** C8 (as stated, refuted).  A device row that references room 99, which no
    room row has: loading raises, but the exception is the [KeyError] of the
    lookup [room_dict[device_tuple[1]]], not a [DanglingReferenceError]. *)
Lemma C8_dangling_room_is_KeyError :
  load_smarthouse_deep Examples.db_dangling = Raise KeyError
  /\ ~ (exists e, load_smarthouse_deep Examples.db_dangling = Raise e
                  /\ exn_class e = "DanglingReferenceError").
Proof.
  split; [reflexivity|].
  intros (e & He & Hc). vm_compute in He. inversion He; subst. discriminate.
Qed.

(** C8 (amended).  When the rooms load (there is a room row and floor numbers
    start at 1) and some device row references a room id that no room row has,
    [load_smarthouse_deep] raises [KeyError]: the row is not dropped.  When
    every device row references the id of a room row, it does not raise
    [KeyError]. *)
Theorem C8_dangling_room_raises (db : database) :
  (tbl_rooms db <> [] ->
   (forall r, In r (tbl_rooms db) -> 1 <= r_floor r) ->
   (exists d, In d (tbl_devices db)
              /\ forall r, In r (tbl_rooms db) -> r_id r <> d_room d) ->
   load_smarthouse_deep db = Raise KeyError)
  /\ ((forall d, In d (tbl_devices db) ->
                 exists r, In r (tbl_rooms db) /\ r_id r = d_room d) ->
      load_smarthouse_deep db <> Raise KeyError).
Proof.
  split.
  - intros Hne Hfl (d & Hd & Hdangling).
    destruct (rooms_loaded db Hne Hfl) as (n & sh & rd & Hmax & Hrun & _ & Hdom).
    rewrite (load_after_floors db n Hmax), Hrun. simpl.
    rewrite (device_loop_dangling rd _ sh (select_device_columns d)).
    + reflexivity.
    + now apply in_map.
    + simpl. apply eq_None_not_Some. rewrite Hdom, in_map_iff.
      intros (r & Hid & Hr). now apply (Hdangling r Hr).
  - intros Hres.
    destruct (sql_max (map r_floor (tbl_rooms db))) as [n|] eqn:Hmax.
    + rewrite (load_after_floors db n Hmax).
      destruct (for_each (create_room _) _ _) as [[sh rd]|e] eqn:Hrun; simpl.
      * apply room_loop_invariant in Hrun as [_ Hdom].
        destruct (device_loop_succeeds rd
                    (map select_device_columns (tbl_devices db)) sh)
          as (sh' & Hdev & _).
        { intros t Ht. apply in_map_iff in Ht as (d & <- & Hd). simpl.
          apply Hdom. right. destruct (Hres d Hd) as (r & Hr & <-).
          now apply in_map. }
        rewrite Hdev. discriminate.
      * apply room_loop_raises in Hrun. subst e. discriminate.
    + unfold load_smarthouse_deep. rewrite Hmax. discriminate.
Qed.

Lemma C8_dangling_room_raises_witness :
  load_smarthouse_deep Examples.db_dangling = Raise KeyError
  /\ load_smarthouse_deep Examples.db_house <> Raise KeyError.
Proof.
  split.
  - apply (proj1 (C8_dangling_room_raises Examples.db_dangling)).
    + discriminate.
    + intros r [<-|[]]. simpl. lia.
    + exists (Examples.device "x" 99 "Smart Plug" "actuator"). split.
      * simpl. right. now left.
      * intros r [<-|[]]. discriminate.
  - apply (proj2 (C8_dangling_room_raises Examples.db_house)).
    intros d [<-|[<-|[<-|[]]]].
    + exists Examples.room1. split; [now left | reflexivity].
    + exists Examples.room3. split; [right; now left | reflexivity].
    + exists Examples.room1. split; [now left | reflexivity].
Defined.

(* ===================================================================== *)
(** * Devices of the loaded house *)
(* ===================================================================== *)

Section LoadedDevices.


Lemma get_devices_map_devices f sh :
  get_devices (map_devices f sh) = map f (get_devices sh).
Proof.
  unfold get_devices, map_devices. simpl.
  induction (floors sh) as [|fl l IH]; simpl; [reflexivity|].
  rewrite map_app, IH. f_equal.
  induction (rooms fl) as [|r rs IHr]; simpl; [reflexivity|].
  now rewrite map_app, IHr.
Qed.

(** ** Updates of the rooms of one floor *)

Lemma room_at_alter_rooms g i sh ref r :
  keeps_devices g ->
  room_at sh ref r ->
  exists r',
    room_at {| floors := alter (with_rooms g) i (floors sh) |} ref r'
    /\ forall x, In x (devices r) -> In x (devices r').
Proof.
  intros Hg (fl & Hfl & Hr). destruct ref as [i' j']. simpl in *.
  unfold room_at. simpl. destruct (decide (i = i')) as [->|Hne].
  - destruct (Hg (rooms fl) j' r Hr) as (r' & Hr' & Hinc).
    exists r'. split; [|exact Hinc].
    exists (with_rooms g fl). rewrite list_lookup_alter_eq, Hfl. split; [reflexivity|].
    exact Hr'.
  - exists r. split; [|auto]. exists fl. now rewrite list_lookup_alter_ne.
Qed.

Lemma keeps_devices_app room : keeps_devices (fun rs => rs ++ [room]).
Proof.
  intros rs j r Hr. exists r. split; [|auto]. now apply lookup_app_l_Some.
Qed.

Lemma keeps_devices_alter (h : Room -> Room) j0 :
  (forall r x, In x (devices r) -> In x (devices (h r))) ->
  keeps_devices (alter h j0).
Proof.
  intros Hh rs j r Hr. destruct (decide (j0 = j)) as [->|Hne].
  - exists (h r). rewrite list_lookup_alter_eq, Hr. split; [reflexivity|]. apply Hh.
  - exists r. rewrite list_lookup_alter_ne by exact Hne. auto.
Qed.

Lemma keeps_devices_register_device dev j0 :
  keeps_devices (alter (with_devices (fun ds => ds ++ [dev])) j0).
Proof.
  apply keeps_devices_alter. intros r x Hx. simpl. apply in_or_app. now left.
Qed.

Lemma valid_ref_register_device sh room dev ref :
  valid_ref sh ref -> valid_ref (register_device sh room dev) ref.
Proof.
  intros [r Hr].
  destruct (room_at_alter_rooms _ (fst room) sh ref r
              (keeps_devices_register_device dev (snd room)) Hr) as (r' & Hr' & _).
  now exists r'.
Qed.



(** ** The references in [room_dict] designate rooms *)

Lemma py_getitem_In {A} (l : list A) (k : Z) (x : A) :
  py_getitem l k = Ok x -> In x l.
Proof.
  unfold py_getitem. destruct (_ && _); [|discriminate].
  destruct (l !! _) eqn:E; [|discriminate].
  intros H. inversion H; subst.
  apply list_elem_of_In, list_elem_of_lookup. eauto.
Qed.

Lemma valid_ref_create_room sh fl size name i ref :
  valid_ref sh ref ->
  valid_ref (set_db_id (fst (register_room sh fl size name))
                       (snd (register_room sh fl size name)) i) ref.
Proof.
  intros [r Hr].
  destruct (room_at_alter_rooms _ fl sh ref r
              (keeps_devices_app {| room_size := size; room_name := name;
                                    db_id := None; devices := [] |}) Hr)
    as (r1 & Hr1 & _).
  eapply (room_at_alter_rooms _ _ _ ref r1) in Hr1 as (r2 & Hr2 & _).
  - exists r2. exact Hr2.
  - apply keeps_devices_alter. intros r0 x Hx. exact Hx.
Qed.

Lemma valid_ref_new_room sh fl size name i :
  (fl < length (floors sh))%nat ->
  valid_ref (set_db_id (fst (register_room sh fl size name))
                       (snd (register_room sh fl size name)) i)
            (snd (register_room sh fl size name)).
Proof.
  intros Hfl. apply lookup_lt_is_Some in Hfl as [flo Hflo].
  set (room := {| room_size := size; room_name := name; db_id := None;
                  devices := [] |}).
  assert (Hnew : room_at (fst (register_room sh fl size name))
                         (snd (register_room sh fl size name)) room).
  { exists (with_rooms (fun rs => rs ++ [room]) flo).
    unfold register_room. cbn [fst snd floors].
    rewrite list_lookup_alter_eq, !Hflo. split; [reflexivity|].
    apply list_lookup_middle. reflexivity. }
  eapply (room_at_alter_rooms _ _ _ _ room) in Hnew as (r2 & Hr2 & _).
  - exists r2. exact Hr2.
  - apply keeps_devices_alter. intros r0 x Hx. exact Hx.
Qed.

Lemma length_floors_create_room sh fl size name i :
  length (floors (set_db_id (fst (register_room sh fl size name))
                            (snd (register_room sh fl size name)) i))
  = length (floors sh).
Proof. simpl. now rewrite !length_alter. Qed.

Lemma room_loop_refs_valid (n : nat) rows sh (rd : gmap Z room_ref) sh' rd' :
  for_each (create_room (seq 0 n)) rows (sh, rd) = Ok (sh', rd') ->
  length (floors sh) = n ->
  (forall k ref, rd !! k = Some ref -> valid_ref sh ref) ->
  (forall k ref, rd' !! k = Some ref -> valid_ref sh' ref).
Proof.
  revert sh rd. induction rows as [|row rows IH]; intros sh rd; simpl.
  - intros H. inversion H; subst. auto.
  - unfold create_room at 1.
    destruct (py_getitem (seq 0 n) (r_floor row - 1)) as [fl|] eqn:Efl;
      simpl; [|discriminate].
    intros Hrun Hlen Hvalid. eapply IH; [exact Hrun | |].
    + rewrite <- Hlen. apply length_floors_create_room.
    + apply py_getitem_In, in_seq in Efl.
      intros k ref Hk. apply lookup_insert_Some in Hk as [[_ <-]|[_ Hk]].
      * apply valid_ref_new_room. lia.
      * apply valid_ref_create_room. eapply Hvalid; eauto.
Qed.

(** ** The devices the loop over the device rows registers *)


(** ** The whole of [load_smarthouse_deep] *)


(** ** The state loop on one device *)






End LoadedDevices.

(* ===================================================================== *)
(** * The state of a loaded actuator *)
(* ===================================================================== *)





(* ===================================================================== *)
(** * Heat pumps in the two reconstruction paths *)
(* ===================================================================== *)



(* ===================================================================== *)
(** * What the queries can and cannot return, on any database *)
(* ===================================================================== *)

Section QueryRange.

Lemma In_distinct (xs : list string) (x : string) :
  In x (distinct xs) -> In x xs.
Proof.
  induction xs as [|y xs IH]; simpl; [tauto|].
  intros [->|Hx]; [now left|]. right. apply IH.
  apply list_elem_of_In. apply list_elem_of_In in Hx.
  now apply list_elem_of_filter in Hx as [_ Hx].
Qed.

Lemma group_by_hour_having_hours (rows : list humidity_row) (p : string * Z) :
  In p (group_by_hour_having rows) -> In (fst p) (map h_hour rows) /\ 3 < snd p.
Proof.
  unfold group_by_hour_having. rewrite in_flat_map.
  intros (hour & Hhour & Hp). apply In_distinct in Hhour.
  destruct (Z.ltb_spec 3
              (Z.of_nat (length (filter (fun row => String.eqb (h_hour row) hour) rows))));
    [|destruct Hp].
  destruct Hp as [<-|[]]. simpl. split; assumption.
Qed.

Lemma hour_in_list_int (hour : string) :
  hour_in_list hour = true ->
  exists n, py_int hour = Ok n /\ In n [7; 8; 9; 12; 18].
Proof.
  unfold hour_in_list. rewrite existsb_exists.
  intros (x & Hx & Heq). apply String.eqb_eq in Heq. subst x.
  simpl in Hx.
  repeat (destruct Hx as [<-|Hx];
          [eexists; split; [reflexivity | simpl; tauto]|]).
  destruct Hx.
Qed.

Lemma map_result_succeeds {A B} (f : A -> result B) (P : B -> Prop) (l : list A) :
  (forall x, In x l -> exists y, f x = Ok y /\ P y) ->
  exists ys, map_result f l = Ok ys /\ forall y, In y ys -> P y.
Proof.
  induction l as [|x l IH]; intros H; simpl.
  - exists []. split; [reflexivity | intros ? []].
  - destruct (H x (or_introl eq_refl)) as (y & -> & Hy).
    destruct IH as (ys & -> & Hys); [intros z Hz; apply H; now right|].
    exists (y :: ys). split; [reflexivity|].
    intros z [<-|Hz]; auto.
Qed.

Lemma In_sorted (l : list Z) (x : Z) : In x (sorted l) <-> In x l.
Proof.
  unfold sorted. rewrite <- !list_elem_of_In.
  now rewrite (merge_sort_Permutation Z.le l).
Qed.

(** X21.  For a stored room [calc_hours_with_humidity_above] returns a list,
    and whatever the measurements are, every hour in it is one of 7, 8, 9, 12
    and 18: an hour outside the list of the [WHERE] clause is never
    reported. *)
Lemma reported_hours_are_listed (db : database) (room : Room) (date : string)
    (row : room_row) :
  fetchone (filter (fun r => String.eqb (r_name r) (room_name room))
                   (tbl_rooms db)) = Some row ->
  exists hours,
    calc_hours_with_humidity_above db room date = Ok hours
    /\ forall h, In h hours -> In h [7; 8; 9; 12; 18].
Proof.
  intros Hrow. unfold calc_hours_with_humidity_above. rewrite Hrow.
  match goal with
  | |- context [map_result ?f ?l] =>
      destruct (map_result_succeeds f (fun n => In n [7; 8; 9; 12; 18]) l)
        as (hs & Hhs & Hin)
  end.
  - intros p Hp. apply group_by_hour_having_hours in Hp as [Hp _].
    apply in_map_iff in Hp as (hr & Hhour & Hhr).
    apply list_elem_of_In, list_elem_of_filter in Hhr as [HP _].
    apply andb_True in HP as [HP _]. apply Is_true_true in HP.
    rewrite <- Hhour. now apply hour_in_list_int.
  - rewrite Hhs. simpl. eexists. split; [reflexivity|].
    intros h Hh. apply Hin. exact (proj1 (In_sorted hs h) Hh).
Qed.

(** A timestamp of the day [bound], with a time of day after the date, is
    greater as text than [bound]: [m.ts <= bound] is false for it. *)
Lemma leb_proper_extension (bound rest : string) :
  rest <> "" -> String.leb (bound ++ rest)%string bound = false.
Proof.
  intros Hrest. unfold String.leb.
  assert (H : String.compare (bound ++ rest)%string bound = Gt).
  { induction bound as [|c bound IH]; simpl.
    - destruct rest; [contradiction | reflexivity].
    - rewrite IH. unfold Ascii.compare. now rewrite N.compare_refl. }
  now rewrite H.
Qed.

Lemma until_date_excludes_its_day (bound rest : string) :
  bound <> "" -> rest <> "" ->
  until_condition (Some bound) (bound ++ rest)%string = false.
Proof.
  intros Hb Hrest. unfold until_condition.
  destruct bound; [contradiction|]. now apply leb_proper_extension.
Qed.

End QueryRange.

(** After [Off] is written for the heat pump of [Examples.db_house], loading
    still gives it the level of its row in [states]. *)
Example load_after_write_reads_states :
  load_smarthouse_deep (update_actuator_state Examples.db_house "hp" Off)
  = Ok Examples.house_loaded.
Proof. reflexivity. Qed.


(* ===================================================================== *)
(** * Order of timestamps *)
(* ===================================================================== *)

Section TextOrder.

Import OrderedTypeEx.

Lemma leb_iff (a b : string) :
  String.leb a b = true <-> a = b \/ String_as_OT.lt a b.
Proof.
  unfold String.leb. split.
  - destruct (String.compare a b) eqn:E; [| |discriminate]; intros _.
    + left. now apply String_as_OT.cmp_eq.
    + right. now apply String_as_OT.cmp_lt.
  - intros [->|H].
    + assert (String.compare b b = Eq) as -> by now apply String_as_OT.cmp_eq.
      reflexivity.
    + apply String_as_OT.cmp_lt in H. unfold String_as_OT.cmp in H.
      now rewrite H.
Qed.

Lemma ltb_iff (a b : string) : String.ltb a b = true <-> String_as_OT.lt a b.
Proof.
  unfold String.ltb. rewrite <- String_as_OT.cmp_lt. unfold String_as_OT.cmp.
  destruct (String.compare a b); split; congruence.
Qed.

Lemma leb_refl (a : string) : String.leb a a = true.
Proof. apply leb_iff. now left. Qed.

Lemma leb_trans (a b c : string) :
  String.leb a b = true -> String.leb b c = true -> String.leb a c = true.
Proof.
  rewrite !leb_iff. intros [->|H1] [->|H2]; auto.
  right. eapply String_as_OT.lt_trans; eauto.
Qed.

Lemma ltb_leb (a b : string) : String.ltb a b = true -> String.leb a b = true.
Proof. rewrite ltb_iff, leb_iff. auto. Qed.

Lemma ltb_false_leb (a b : string) :
  String.ltb a b = false -> String.leb b a = true.
Proof.
  unfold String.ltb, String.leb. rewrite (String.compare_antisym b a).
  destruct (String.compare a b); simpl; congruence.
Qed.

Lemma ltb_not_leb (a b : string) :
  String.ltb a b = true -> String.leb b a = false.
Proof.
  unfold String.ltb, String.leb. rewrite (String.compare_antisym b a).
  destruct (String.compare a b); simpl; congruence.
Qed.

End TextOrder.

(* ===================================================================== *)
(** * [ORDER BY ts LIMIT 1] *)
(* ===================================================================== *)

Section Limit1.

Lemma pick_first_In before best rows : In (pick_first before best rows) (best :: rows).
Proof.
  revert best. induction rows as [|r rows IH]; intros best; simpl; [now left|].
  destruct (IH (if before (m_ts (snd r)) (m_ts (snd best)) then r else best))
    as [H|H]; [|auto].
  destruct (before _ _); rewrite <- H; auto.
Qed.

Lemma pick_row_In before best rows : In (pick_row before best rows) (best :: rows).
Proof.
  revert best. induction rows as [|r rows IH]; intros best; simpl; [now left|].
  destruct (IH (if before (m_ts r) (m_ts best) then r else best)) as [H|H]; [|auto].
  destruct (before _ _); rewrite <- H; auto.
Qed.

Lemma pick_row_asc_least best rows x :
  In x (best :: rows) ->
  String.leb (m_ts (pick_row ts_asc best rows)) (m_ts x) = true.
Proof.
  revert best x. induction rows as [|r rows IH]; intros best x; simpl.
  - intros [<-|[]]. apply leb_refl.
  - change (ts_asc (m_ts r) (m_ts best)) with (String.ltb (m_ts r) (m_ts best)).
    destruct (String.ltb (m_ts r) (m_ts best)) eqn:E.
    + intros [<-|[<-|Hx]].
      * eapply leb_trans; [apply IH; now left | now apply ltb_leb].
      * apply IH. now left.
      * apply IH. now right.
    + intros [<-|[<-|Hx]].
      * apply IH. now left.
      * eapply leb_trans; [apply IH; now left | now apply ltb_false_leb].
      * apply IH. now right.
Qed.

Lemma pick_row_desc_greatest best rows x :
  In x (best :: rows) ->
  String.leb (m_ts x) (m_ts (pick_row ts_desc best rows)) = true.
Proof.
  revert best x. induction rows as [|r rows IH]; intros best x; simpl.
  - intros [<-|[]]. apply leb_refl.
  - change (ts_desc (m_ts r) (m_ts best)) with (String.ltb (m_ts best) (m_ts r)).
    destruct (String.ltb (m_ts best) (m_ts r)) eqn:E.
    + intros [<-|[<-|Hx]].
      * eapply leb_trans; [apply ltb_leb; exact E | apply IH; now left].
      * apply IH. now left.
      * apply IH. now right.
    + intros [<-|[<-|Hx]].
      * apply IH. now left.
      * eapply leb_trans; [apply ltb_false_leb; exact E | apply IH; now left].
      * apply IH. now right.
Qed.

Lemma snd_pick_first before best rows :
  snd (pick_first before best rows) = pick_row before (snd best) (map snd rows).
Proof.
  revert best. induction rows as [|r rows IH]; intros best; simpl; [reflexivity|].
  rewrite IH. now destruct (before _ _).
Qed.

End Limit1.

(* ===================================================================== *)
(** * The measurements of one device *)
(* ===================================================================== *)

Section MeasurementRows.

Lemma map_snd_filter_imap (P : measurement_row -> bool) (g : nat -> nat)
    (l : list measurement_row) :
  map snd (filter (fun r => P (snd r)) (imap (fun i row => (g i, row)) l))
  = filter (fun r => P r) l.
Proof.
  revert g. induction l as [|x l IH]; intros g; [reflexivity|].
  rewrite imap_cons, !filter_cons. simpl.
  specialize (IH (fun i => g (S i))).
  destruct (decide (P x)); simpl; now rewrite <- IH.
Qed.

Lemma map_snd_measurements_of db sensor_id :
  map snd (measurements_of db sensor_id) = rows_of db sensor_id.
Proof.
  unfold measurements_of, rows_of, with_rowid.
  apply (map_snd_filter_imap (fun r => String.eqb (m_device r) sensor_id)
                             (fun i => i)).
Qed.

Lemma In_measurements_of db sensor_id i row :
  In (i, row) (measurements_of db sensor_id)
  <-> tbl_measurements db !! i = Some row /\ m_device row = sensor_id.
Proof.
  unfold measurements_of, with_rowid.
  rewrite <- list_elem_of_In, list_elem_of_filter, elem_of_lookup_imap. simpl.
  split.
  - intros [Hdev (j & y & Heq & Hy)]. inversion Heq; subst.
    split; [exact Hy|]. apply String.eqb_eq. now apply Is_true_true.
  - intros [Hrow <-]. split.
    + apply Is_true_true. apply String.eqb_refl.
    + eauto.
Qed.

Lemma In_rows_of db sensor_id row :
  In row (rows_of db sensor_id)
  <-> In row (tbl_measurements db) /\ m_device row = sensor_id.
Proof.
  unfold rows_of. rewrite <- !list_elem_of_In, list_elem_of_filter.
  rewrite Is_true_true, String.eqb_eq. tauto.
Qed.

Lemma rows_of_nil db sensor_id :
  rows_of db sensor_id = []
  <-> forall row, In row (tbl_measurements db) -> m_device row <> sensor_id.
Proof.
  split.
  - intros Hnil row Hrow Hdev.
    assert (H : In row (rows_of db sensor_id)) by now apply In_rows_of.
    rewrite Hnil in H. destruct H.
  - intros Hno. destruct (rows_of db sensor_id) as [|row l] eqn:E; [reflexivity|].
    assert (H : In row (rows_of db sensor_id)) by (rewrite E; now left).
    apply In_rows_of in H as [Hin Hdev]. now destruct (Hno row Hin).
Qed.

(** [get_latest_reading] in terms of the rows of the device. *)
Lemma latest_reading_rows db sensor :
  get_latest_reading db sensor
  = match rows_of db (dev_id sensor) with
    | [] => None
    | r :: rs =>
        let latest := pick_row ts_desc r rs in
        Some {| ms_timestamp := m_ts latest; ms_value := m_value latest;
                ms_unit := m_unit latest |}
    end.
Proof.
  unfold get_latest_reading. rewrite <- map_snd_measurements_of.
  destruct (measurements_of db (dev_id sensor)) as [|p l]; simpl; [reflexivity|].
  rewrite <- snd_pick_first. now destruct (pick_first ts_desc p l).
Qed.

(** The row [delete_oldest_measurement] selects. *)
Lemma oldest_selected db sensor_id i row :
  order_by_ts_limit_1 ts_asc (measurements_of db sensor_id) = Some (i, row) ->
  tbl_measurements db !! i = Some row
  /\ m_device row = sensor_id
  /\ exists r rs, rows_of db sensor_id = r :: rs /\ row = pick_row ts_asc r rs.
Proof.
  intros Hsel. rewrite <- map_snd_measurements_of.
  destruct (measurements_of db sensor_id) as [|p l] eqn:E; simpl in Hsel;
    [discriminate|].
  inversion Hsel as [Hp].
  assert (Hin : In (i, row) (measurements_of db sensor_id)).
  { rewrite E, <- Hp. apply pick_first_In. }
  apply In_measurements_of in Hin as [Hrow Hdev].
  split; [exact Hrow|]. split; [exact Hdev|].
  exists (snd p), (map snd l). split; [reflexivity|].
  rewrite <- snd_pick_first, Hp. reflexivity.
Qed.

Lemma oldest_none db sensor_id :
  order_by_ts_limit_1 ts_asc (measurements_of db sensor_id) = None ->
  rows_of db sensor_id = [].
Proof.
  rewrite <- map_snd_measurements_of.
  destruct (measurements_of db sensor_id); simpl; [reflexivity | discriminate].
Qed.

Lemma filter_delete_other (P : measurement_row -> bool)
    (l : list measurement_row) (i : nat) (x : measurement_row) :
  l !! i = Some x -> P x = false ->
  filter (fun r => P r) (delete i l) = filter (fun r => P r) l.
Proof.
  revert i. induction l as [|y l IH]; intros [|i]; simpl; try discriminate.
  - intros H Hx. inversion H; subst. rewrite filter_cons.
    destruct (decide (P x)) as [HP|_]; [|reflexivity].
    rewrite Hx in HP. destruct HP.
  - intros H Hx. rewrite !filter_cons, (IH i H Hx). reflexivity.
Qed.

Lemma In_delete_other {A} (l : list A) (i : nat) (x y : A) :
  l !! i = Some x -> In y l -> y <> x -> In y (delete i l).
Proof.
  revert i. induction l as [|z l IH]; intros [|i]; simpl; try discriminate.
  - intros H [<-|Hy] Hne; [|exact Hy]. inversion H; subst. contradiction.
  - intros H [<-|Hy] Hne; [now left|]. right. eapply IH; eauto.
Qed.

Lemma In_delete {A} (l : list A) (i : nat) (y : A) :
  In y (delete i l) -> In y l.
Proof.
  revert i. induction l as [|z l IH]; intros [|i]; simpl; auto.
  intros [<-|Hy]; [now left|]. right. eapply IH; eauto.
Qed.

Lemma with_measurements_same db : with_measurements db (tbl_measurements db) = db.
Proof. now destruct db. Qed.

Lemma rows_of_add db sensor_id measurement now s :
  rows_of (add_measurement_to_sensor db sensor_id measurement now) s
  = rows_of db s
    ++ (if String.eqb sensor_id s
        then [ {| m_device := sensor_id; m_value := nm_value measurement;
                  m_unit := nm_unit measurement; m_ts := now |} ]
        else []).
Proof.
  unfold rows_of. simpl. rewrite filter_app, filter_cons. simpl.
  destruct (String.eqb sensor_id s); simpl; reflexivity.
Qed.

Lemma same_ts_same_row (l : list measurement_row) (a b : measurement_row) :
  List.NoDup (map m_ts l) -> In a l -> In b l -> m_ts a = m_ts b -> a = b.
Proof.
  induction l as [|x l IH]; simpl; [intros _ []|].
  intros Hnd Ha Hb Hts. inversion Hnd as [|? ? Hnot Hnd']; subst.
  destruct Ha as [<-|Ha], Hb as [<-|Hb]; auto.
  - exfalso. apply Hnot. rewrite Hts. now apply in_map.
  - exfalso. apply Hnot. rewrite <- Hts. now apply in_map.
Qed.

End MeasurementRows.

(* ===================================================================== *)
(** * The measurement store: latest, oldest, append *)
(* ===================================================================== *)

(** X1.  [get_latest_reading] returns [None] exactly when [measurements] has
    no row of the device. *)
Theorem latest_reading_none_iff (db : database) (sensor : Device) :
  get_latest_reading db sensor = None
  <-> forall row, In row (tbl_measurements db) -> m_device row <> dev_id sensor.
Proof.
  rewrite latest_reading_rows, <- rows_of_nil.
  destruct (rows_of db (dev_id sensor)); split; congruence.
Qed.

(** X2.  The reading [get_latest_reading] returns is a row of the device, and
    no row of the device has a later timestamp (as text). *)
Theorem latest_reading_is_greatest (db : database) (sensor : Device)
    (m : Measurement) :
  get_latest_reading db sensor = Some m ->
  (exists row,
      In row (tbl_measurements db) /\ m_device row = dev_id sensor
      /\ m = {| ms_timestamp := m_ts row; ms_value := m_value row;
                ms_unit := m_unit row |})
  /\ (forall row,
         In row (tbl_measurements db) -> m_device row = dev_id sensor ->
         String.leb (m_ts row) (ms_timestamp m) = true).
Proof.
  rewrite latest_reading_rows.
  destruct (rows_of db (dev_id sensor)) as [|r rs] eqn:E; [discriminate|].
  intros H. inversion H; subst; clear H. simpl. split.
  - exists (pick_row ts_desc r rs). split; [|split; [|reflexivity]].
    + apply (In_rows_of db (dev_id sensor)). rewrite E. apply pick_row_In.
    + apply (In_rows_of db (dev_id sensor)). rewrite E. apply pick_row_In.
  - intros row Hrow Hdev. apply pick_row_desc_greatest.
    rewrite <- E. now apply In_rows_of.
Qed.

Lemma latest_reading_is_greatest_witness :
  String.leb "2024-01-27 08:00:00" "2024-01-27 10:00:00" = true.
Proof.
  refine (proj2 (latest_reading_is_greatest Fixtures.db_measured
                   Fixtures.sensor_t1
                   {| ms_timestamp := "2024-01-27 10:00:00"; ms_value := 21%Q;
                      ms_unit := temperature_unit |} _)
                (Examples.measurement "t1" 20%Q temperature_unit
                                      "2024-01-27 08:00:00") _ _).
  - reflexivity.
  - simpl. tauto.
  - reflexivity.
Defined.

Lemma pick_latest_added (rows : list measurement_row) (new r : measurement_row)
    (rs : list measurement_row) :
  (forall row, In row rows -> String.ltb (m_ts row) (m_ts new) = true) ->
  rows ++ [new] = r :: rs ->
  pick_row ts_desc r rs = new.
Proof.
  intros Hlater E.
  assert (Hin : In (pick_row ts_desc r rs) (rows ++ [new])).
  { rewrite E. apply pick_row_In. }
  assert (Hmax : String.leb (m_ts new) (m_ts (pick_row ts_desc r rs)) = true).
  { apply pick_row_desc_greatest. rewrite <- E. apply in_or_app. right. now left. }
  apply in_app_or in Hin as [Hold|[<-|[]]]; [|reflexivity].
  pose proof (ltb_not_leb _ _ (Hlater _ Hold)) as Hnot. congruence.
Qed.

(** X3.  After [add_measurement_to_sensor] at a time later than every
    timestamp the sensor has, [get_latest_reading] returns the measurement
    just added. *)
Theorem latest_after_add (db : database) (sensor : Device)
    (measurement : NewSensorMeasurement) (now : string) :
  (forall row, In row (tbl_measurements db) -> m_device row = dev_id sensor ->
               String.ltb (m_ts row) now = true) ->
  get_latest_reading
    (add_measurement_to_sensor db (dev_id sensor) measurement now) sensor
  = Some {| ms_timestamp := now; ms_value := nm_value measurement;
            ms_unit := nm_unit measurement |}.
Proof.
  intros Hlater. rewrite latest_reading_rows, rows_of_add, String.eqb_refl.
  set (new := {| m_device := dev_id sensor; m_value := nm_value measurement;
                 m_unit := nm_unit measurement; m_ts := now |}).
  destruct (rows_of db (dev_id sensor) ++ [new]) as [|r rs] eqn:E.
  { destruct (rows_of db (dev_id sensor)); discriminate. }
  simpl. rewrite (pick_latest_added (rows_of db (dev_id sensor)) new r rs).
  - reflexivity.
  - intros row Hrow. apply In_rows_of in Hrow as [Hrow Hdev]. now apply Hlater.
  - exact E.
Qed.

Lemma latest_after_add_witness :
  get_latest_reading
    (add_measurement_to_sensor Fixtures.db_measured "t1" (Fixtures.reading 23)
                               "2024-01-28 07:00:00")
    Fixtures.sensor_t1
  = Some {| ms_timestamp := "2024-01-28 07:00:00"; ms_value := 23%Q;
            ms_unit := temperature_unit |}.
Proof.
  apply (latest_after_add Fixtures.db_measured Fixtures.sensor_t1
                          (Fixtures.reading 23) "2024-01-28 07:00:00").
  intros row Hrow Hdev. simpl in Hrow.
  repeat (destruct Hrow as [<-|Hrow]; [try reflexivity; discriminate Hdev|]).
  destruct Hrow.
Defined.

Lemma delete_oldest_selected (db : database) (sensor_id : string) :
  (exists row, In row (tbl_measurements db) /\ m_device row = sensor_id) ->
  exists i row,
    tbl_measurements db !! i = Some row
    /\ m_device row = sensor_id
    /\ (forall row', In row' (tbl_measurements db) -> m_device row' = sensor_id ->
                     String.leb (m_ts row) (m_ts row') = true)
    /\ delete_oldest_measurement db sensor_id
       = with_measurements db (delete i (tbl_measurements db)).
Proof.
  unfold delete_oldest_measurement. intros (row0 & Hin0 & Hdev0).
  destruct (order_by_ts_limit_1 ts_asc (measurements_of db sensor_id))
    as [[i row]|] eqn:Hsel.
  - apply oldest_selected in Hsel as (Hrow & Hdev & r & rs & Hrows & Hpick).
    exists i, row. split; [exact Hrow|]. split; [exact Hdev|]. split; [|reflexivity].
    intros row' Hin' Hdev'. rewrite Hpick. apply pick_row_asc_least.
    rewrite <- Hrows. now apply In_rows_of.
  - apply oldest_none in Hsel. exfalso.
    apply (proj1 (rows_of_nil db sensor_id) Hsel row0 Hin0 Hdev0).
Qed.

(** X4.  When the sensor has a measurement, [delete_oldest_measurement]
    removes exactly one row: a row of that sensor that no row of the sensor
    precedes in time.  When it has none, the database is unchanged. *)
Theorem delete_oldest_removes_least (db : database) (sensor_id : string) :
  ((exists row, In row (tbl_measurements db) /\ m_device row = sensor_id) ->
   exists i row,
     tbl_measurements db !! i = Some row
     /\ m_device row = sensor_id
     /\ (forall row', In row' (tbl_measurements db) -> m_device row' = sensor_id ->
                      String.leb (m_ts row) (m_ts row') = true)
     /\ tbl_measurements (delete_oldest_measurement db sensor_id)
        = delete i (tbl_measurements db)
     /\ S (length (tbl_measurements (delete_oldest_measurement db sensor_id)))
        = length (tbl_measurements db))
  /\ ((forall row, In row (tbl_measurements db) -> m_device row <> sensor_id) ->
      delete_oldest_measurement db sensor_id = db).
Proof.
  split.
  - intros Hsome.
    destruct (delete_oldest_selected db sensor_id Hsome)
      as (i & row & Hrow & Hdev & Hleast & Heq).
    exists i, row. rewrite Heq. simpl.
    split; [exact Hrow|]. split; [exact Hdev|]. split; [exact Hleast|].
    split; [reflexivity|].
    rewrite length_delete by eauto. apply lookup_lt_Some in Hrow. lia.
  - intros Hno. apply rows_of_nil in Hno. unfold delete_oldest_measurement.
    destruct (order_by_ts_limit_1 ts_asc (measurements_of db sensor_id))
      as [[i row]|] eqn:Hsel; [|reflexivity].
    apply oldest_selected in Hsel as (_ & _ & r & rs & Hrows & _). congruence.
Qed.

Lemma delete_oldest_removes_least_witness :
  map m_ts (tbl_measurements (delete_oldest_measurement Fixtures.db_measured "t1"))
  = ["2024-01-27 10:00:00"; "2024-01-27 09:00:00"; "2024-01-27 08:00:00"]
  /\ delete_oldest_measurement Fixtures.db_measured "none" = Fixtures.db_measured.
Proof.
  split.
  - destruct (proj1 (delete_oldest_removes_least Fixtures.db_measured "t1"))
      as (i & row & _ & _ & _ & _ & _).
    + exists (Examples.measurement "t1" 21%Q temperature_unit "2024-01-27 10:00:00").
      split; [now left | reflexivity].
    + reflexivity.
  - apply (proj2 (delete_oldest_removes_least Fixtures.db_measured "none")).
    intros row Hrow. simpl in Hrow.
    repeat (destruct Hrow as [<-|Hrow]; [discriminate|]). destruct Hrow.
Defined.

(** X5.  [delete_oldest_measurement] and [add_measurement_to_sensor] for one
    sensor leave the rows of every other device as they are, in their order,
    so the latest reading of another device is the same after the call. *)
Theorem other_sensor_untouched (db : database) (sensor_id : string)
    (other : Device) (measurement : NewSensorMeasurement) (now : string) :
  dev_id other <> sensor_id ->
  rows_of (delete_oldest_measurement db sensor_id) (dev_id other)
  = rows_of db (dev_id other)
  /\ get_latest_reading (delete_oldest_measurement db sensor_id) other
     = get_latest_reading db other
  /\ rows_of (add_measurement_to_sensor db sensor_id measurement now) (dev_id other)
     = rows_of db (dev_id other)
  /\ get_latest_reading
       (add_measurement_to_sensor db sensor_id measurement now) other
     = get_latest_reading db other.
Proof.
  intros Hne.
  assert (Hdel : rows_of (delete_oldest_measurement db sensor_id) (dev_id other)
                 = rows_of db (dev_id other)).
  { unfold delete_oldest_measurement.
    destruct (order_by_ts_limit_1 ts_asc (measurements_of db sensor_id))
      as [[i row]|] eqn:Hsel; [|reflexivity].
    apply oldest_selected in Hsel as (Hrow & Hdev & _).
    unfold rows_of. simpl.
    apply (filter_delete_other (fun r => String.eqb (m_device r) (dev_id other))
                               _ i row Hrow).
    apply String.eqb_neq. congruence. }
  assert (Hadd : rows_of (add_measurement_to_sensor db sensor_id measurement now)
                         (dev_id other)
                 = rows_of db (dev_id other)).
  { rewrite rows_of_add.
    destruct (String.eqb_spec sensor_id (dev_id other)); [congruence|].
    apply app_nil_r. }
  repeat split; try assumption.
  - now rewrite !latest_reading_rows, Hdel.
  - now rewrite !latest_reading_rows, Hadd.
Qed.

Lemma other_sensor_untouched_witness :
  get_latest_reading (delete_oldest_measurement Fixtures.db_measured "hp")
                     Fixtures.sensor_t1
  = get_latest_reading Fixtures.db_measured Fixtures.sensor_t1.
Proof.
  refine (proj1 (proj2 (other_sensor_untouched Fixtures.db_measured "hp"
                          Fixtures.sensor_t1 (Fixtures.reading 0) "" _))).
  discriminate.
Defined.

(** X6.  Adding a measurement for a sensor at a time earlier than all its
    timestamps (in particular, for a sensor without measurements) and then
    deleting its oldest measurement gives the database back. *)
Theorem add_then_delete_oldest (db : database) (sensor_id : string)
    (measurement : NewSensorMeasurement) (now : string) :
  (forall row, In row (tbl_measurements db) -> m_device row = sensor_id ->
               String.ltb now (m_ts row) = true) ->
  delete_oldest_measurement
    (add_measurement_to_sensor db sensor_id measurement now) sensor_id
  = db.
Proof.
  intros Hearlier.
  set (new := {| m_device := sensor_id; m_value := nm_value measurement;
                 m_unit := nm_unit measurement; m_ts := now |}).
  set (db' := add_measurement_to_sensor db sensor_id measurement now).
  destruct (delete_oldest_selected db' sensor_id)
    as (i & row & Hrow & Hdev & Hleast & Heq).
  { exists new. split; [|reflexivity]. simpl. apply in_or_app. right. now left. }
  assert (Hi : i = length (tbl_measurements db)).
  { simpl in Hrow.
    destruct (decide (i < length (tbl_measurements db))%nat) as [Hlt|Hge].
    - rewrite lookup_app_l in Hrow by exact Hlt.
      assert (Hin : In row (tbl_measurements db)).
      { apply list_elem_of_In, list_elem_of_lookup. eauto. }
      pose proof (ltb_not_leb _ _ (Hearlier row Hin Hdev)) as Hnot.
      assert (Hle : String.leb (m_ts row) (m_ts new) = true).
      { apply Hleast; [|reflexivity]. simpl. apply in_or_app. right. now left. }
      simpl in Hle. congruence.
    - apply lookup_lt_Some in Hrow. rewrite length_app in Hrow. simpl in Hrow. lia. }
  subst i. rewrite Heq. subst db'. simpl.
  rewrite (delete_middle (tbl_measurements db) []), app_nil_r.
  now destruct db.
Qed.

Lemma add_then_delete_oldest_witness :
  delete_oldest_measurement
    (add_measurement_to_sensor Fixtures.db_measured "t1" (Fixtures.reading 18)
                               "2024-01-25 23:00:00") "t1"
  = Fixtures.db_measured.
Proof.
  apply (add_then_delete_oldest Fixtures.db_measured "t1" (Fixtures.reading 18)
                                "2024-01-25 23:00:00").
  intros row Hrow Hdev. simpl in Hrow.
  repeat (destruct Hrow as [<-|Hrow]; [try reflexivity; discriminate Hdev|]).
  destruct Hrow.
Defined.

(** X7.  For a sensor with at least two measurements, all at different
    timestamps, deleting the oldest measurement does not change the latest
    reading. *)
Theorem latest_after_delete_oldest (db : database) (sensor : Device) :
  List.NoDup (map m_ts (rows_of db (dev_id sensor))) ->
  (2 <= length (rows_of db (dev_id sensor)))%nat ->
  get_latest_reading (delete_oldest_measurement db (dev_id sensor)) sensor
  = get_latest_reading db sensor.
Proof.
  intros Hnd Hlen.
  set (s := dev_id sensor) in *.
  destruct (rows_of db s) as [|a l] eqn:EL; [simpl in Hlen; lia|].
  destruct (delete_oldest_selected db s)
    as (i & row0 & Hrow0 & Hdev0 & Hleast & Heq).
  { exists a. apply In_rows_of. rewrite EL. now left. }
  set (r1 := pick_row ts_desc a l).
  assert (Hr1 : In r1 (a :: l)) by apply pick_row_In.
  assert (Hmax : forall x, In x (a :: l) -> String.leb (m_ts x) (m_ts r1) = true).
  { intros x Hx. now apply pick_row_desc_greatest. }
  assert (Hmin : forall x, In x (a :: l) -> String.leb (m_ts row0) (m_ts x) = true).
  { intros x Hx. rewrite <- EL in Hx. apply In_rows_of in Hx as [Hx Hd].
    now apply Hleast. }
  assert (Hne : r1 <> row0).
  { intros Heq1. destruct l as [|b l]; [simpl in Hlen; lia|].
    assert (Hall : forall x, In x (a :: b :: l) -> m_ts x = m_ts row0).
    { intros x Hx. apply String.leb_antisym; [|now apply Hmin].
      rewrite <- Heq1. now apply Hmax. }
    simpl in Hnd. inversion Hnd as [|? ? Hnot _]; subst. apply Hnot.
    rewrite (Hall a), <- (Hall b); simpl; auto. }
  rewrite !latest_reading_rows. fold s. rewrite EL.
  assert (Hsub : forall y, In y (rows_of (delete_oldest_measurement db s) s) ->
                           In y (a :: l)).
  { intros y Hy. rewrite Heq in Hy. apply In_rows_of in Hy as [Hy Hd].
    simpl in Hy. apply In_delete in Hy. rewrite <- EL. now apply In_rows_of. }
  assert (Hkept : In r1 (rows_of (delete_oldest_measurement db s) s)).
  { rewrite Heq. apply In_rows_of. rewrite <- EL in Hr1.
    apply In_rows_of in Hr1 as [Hin Hd]. split; [|exact Hd]. simpl.
    eapply In_delete_other; eauto. }
  destruct (rows_of (delete_oldest_measurement db s) s) as [|a' l'] eqn:EL';
    [destruct Hkept|].
  assert (Hsame : pick_row ts_desc a' l' = r1).
  { apply (same_ts_same_row (a :: l)); [exact Hnd | | exact Hr1 |].
    - apply Hsub. apply pick_row_In.
    - apply String.leb_antisym.
      + apply Hmax. apply Hsub. apply pick_row_In.
      + now apply pick_row_desc_greatest. }
  simpl. now rewrite Hsame.
Qed.

Lemma latest_after_delete_oldest_witness :
  get_latest_reading (delete_oldest_measurement Fixtures.db_measured "t1")
                     Fixtures.sensor_t1
  = get_latest_reading Fixtures.db_measured Fixtures.sensor_t1.
Proof.
  apply (latest_after_delete_oldest Fixtures.db_measured Fixtures.sensor_t1).
  - vm_compute. repeat constructor; simpl; intros H;
      repeat (destruct H as [H|H]; [discriminate H|]); exact H.
  - vm_compute. lia.
Defined.

(** X8.  [add_measurement_to_sensor] and [delete_oldest_measurement] write to
    [measurements] only: what [load_smarthouse_deep], [get_device_by_id] and
    [get_actuator_state] return is the same after the call. *)
Theorem measurement_writes_leave_structure (db : database) (sensor_id : string)
    (measurement : NewSensorMeasurement) (now : string) :
  let added := add_measurement_to_sensor db sensor_id measurement now in
  let deleted := delete_oldest_measurement db sensor_id in
  load_smarthouse_deep added = load_smarthouse_deep db
  /\ load_smarthouse_deep deleted = load_smarthouse_deep db
  /\ (forall i, get_device_by_id added i = get_device_by_id db i
                /\ get_device_by_id deleted i = get_device_by_id db i)
  /\ (forall i, get_actuator_state added i = get_actuator_state db i
                /\ get_actuator_state deleted i = get_actuator_state db i).
Proof.
  intros added deleted. subst added deleted. unfold delete_oldest_measurement.
  destruct (order_by_ts_limit_1 ts_asc (measurements_of db sensor_id))
    as [[i row]|]; repeat split.
Qed.

(* ===================================================================== *)
(** * The [state] column: missing ids, other ids, repeated writes *)
(* ===================================================================== *)

Lemma update_state_column_other actuator_id v d :
  d_id d <> actuator_id -> update_state_column actuator_id v d = d.
Proof.
  intros Hne. unfold update_state_column.
  now destruct (String.eqb_spec (d_id d) actuator_id).
Qed.

Lemma fetch_other_after_update actuator_id other v ds :
  other <> actuator_id ->
  fetchone (filter (fun d => String.eqb (d_id d) other)
                   (map (update_state_column actuator_id v) ds))
  = fetchone (filter (fun d => String.eqb (d_id d) other) ds).
Proof.
  intros Hne. induction ds as [|d ds IH]; simpl; [reflexivity|].
  rewrite !filter_cons, d_id_update_state_column.
  destruct (decide (String.eqb (d_id d) other)) as [E|E]; simpl; [|exact IH].
  apply Is_true_true, String.eqb_eq in E.
  rewrite update_state_column_other by congruence. reflexivity.
Qed.

(** X9.  For an id that no device row has, [get_actuator_state] returns
    [None] and [update_actuator_state] changes nothing.  For a device row
    whose [state] is [NULL], [get_actuator_state] returns [False], not
    [None]. *)
Theorem actuator_state_missing_id (db : database) (actuator_id : string) :
  ((forall d, In d (tbl_devices db) -> d_id d <> actuator_id) ->
   get_actuator_state db actuator_id = None
   /\ forall new_state, update_actuator_state db actuator_id new_state = db)
  /\ (forall row,
        fetchone (filter (fun d => String.eqb (d_id d) actuator_id)
                         (tbl_devices db)) = Some row ->
        d_state row = None ->
        get_actuator_state db actuator_id = Some false).
Proof.
  split.
  - intros Hno. split.
    + unfold get_actuator_state.
      rewrite (fetchone_filter_none (fun d => String.eqb (d_id d) actuator_id));
        [reflexivity|].
      intros d Hd. apply String.eqb_neq. now apply Hno.
    + intros new_state. unfold update_actuator_state.
      assert (map (update_state_column actuator_id (Some (state_param new_state)))
                  (tbl_devices db) = tbl_devices db) as ->.
      { rewrite <- (map_id (tbl_devices db)) at 2. apply map_ext_in.
        intros d Hd. apply update_state_column_other. now apply Hno. }
      now destruct db.
  - intros row Hrow Hnull. unfold get_actuator_state. now rewrite Hrow, Hnull.
Qed.

Lemma actuator_state_missing_id_witness :
  get_actuator_state Examples.db_house "nobody" = None
  /\ update_actuator_state Examples.db_house "nobody" On = Examples.db_house
  /\ get_actuator_state Examples.db_house "plug" = Some false.
Proof.
  pose proof (actuator_state_missing_id Examples.db_house "nobody") as [H _].
  destruct H as [H1 H2].
  { intros d Hd. simpl in Hd.
    repeat (destruct Hd as [<-|Hd]; [discriminate|]). destruct Hd. }
  split; [exact H1|]. split; [apply H2|].
  apply (proj2 (actuator_state_missing_id Examples.db_house "plug")
               (Examples.device "plug" 2 "Smart Plug" "actuator"));
    reflexivity.
Defined.

(** X10.  Writing the state of one device does not change what
    [get_actuator_state] returns for a device of another id. *)
Theorem actuator_state_other_id (db : database) (actuator_id other : string)
    (new_state : ActuatorState) :
  other <> actuator_id ->
  get_actuator_state (update_actuator_state db actuator_id new_state) other
  = get_actuator_state db other.
Proof.
  intros Hne. unfold get_actuator_state. simpl tbl_devices.
  now rewrite fetch_other_after_update.
Qed.

Lemma actuator_state_other_id_witness :
  get_actuator_state (update_actuator_state Examples.db_house "hp" On) "plug"
  = get_actuator_state Examples.db_house "plug".
Proof.
  apply (actuator_state_other_id Examples.db_house "hp" "plug" On). discriminate.
Defined.

(** X11.  Of two writes of the state of one device the last one wins: the
    database after both is the database after the second alone. *)
Theorem actuator_state_last_write (db : database) (actuator_id : string)
    (first second : ActuatorState) :
  update_actuator_state (update_actuator_state db actuator_id first)
                        actuator_id second
  = update_actuator_state db actuator_id second.
Proof.
  unfold update_actuator_state. simpl. f_equal.
  rewrite map_map. apply map_ext. intros d.
  unfold update_state_column at 2.
  destruct (String.eqb (d_id d) actuator_id) eqn:E.
  - unfold update_state_column. simpl. now rewrite E.
  - reflexivity.
Qed.

(* ===================================================================== *)
(** * [get_device_by_id] against the loader *)
(* ===================================================================== *)

(** X12.  [get_device_by_id] returns [None] for an id without a device row
    and for a row whose category is neither ['sensor'] nor ['actuator'].
    For every other row that is not a heat pump actuator it builds the device
    the loader builds of the row, and the device has the id asked for. *)
Theorem get_device_by_id_agrees_with_loader (db : database) (device_id : string) :
  ((forall d, In d (tbl_devices db) -> d_id d <> device_id) ->
   get_device_by_id db device_id = None)
  /\ (forall row,
        fetchone (filter (fun d => String.eqb (d_id d) device_id)
                         (tbl_devices db)) = Some row ->
        (d_category row <> "sensor" -> d_category row <> "actuator" ->
         get_device_by_id db device_id = None)
        /\ (~ (d_category row = "actuator" /\ d_kind row = "Heat Pump") ->
            get_device_by_id db device_id
            = device_of_tuple (select_device_columns row))
        /\ (forall dev, get_device_by_id db device_id = Some dev ->
                        dev_id dev = device_id)).
Proof.
  split.
  - intros Hno. unfold get_device_by_id.
    rewrite (fetchone_filter_none (fun d => String.eqb (d_id d) device_id));
      [reflexivity|].
    intros d Hd. apply String.eqb_neq. now apply Hno.
  - intros row Hrow.
    assert (Hid : d_id row = device_id).
    { unfold fetchone in Hrow. apply head_Some_elem_of in Hrow.
      apply list_elem_of_filter in Hrow as [H _].
      now apply Is_true_true, String.eqb_eq in H. }
    unfold get_device_by_id, device_of_tuple. rewrite Hrow. simpl.
    destruct (String.eqb_spec (d_category row) "sensor") as [Hs|Hs];
      [|destruct (String.eqb_spec (d_category row) "actuator") as [Ha|Ha]].
    + repeat split; try congruence. intros dev H. inversion H; subst. reflexivity.
    + repeat split; try congruence.
      * intros Hnot. destruct (String.eqb_spec (d_kind row) "Heat Pump"); [|reflexivity].
        exfalso. apply Hnot. now split.
      * intros dev H. inversion H; subst. reflexivity.
    + repeat split; congruence.
Qed.

Lemma get_device_by_id_agrees_with_loader_witness :
  get_device_by_id Examples.db_house "nobody" = None
  /\ get_device_by_id Examples.db_house "plug"
     = device_of_tuple
         (select_device_columns (Examples.device "plug" 2 "Smart Plug" "actuator")).
Proof.
  split.
  - apply (proj1 (get_device_by_id_agrees_with_loader Examples.db_house "nobody")).
    intros d Hd. simpl in Hd.
    repeat (destruct Hd as [<-|Hd]; [discriminate|]). destruct Hd.
  - refine (proj1 (proj2 (proj2 (get_device_by_id_agrees_with_loader
                            Examples.db_house "plug")
                         (Examples.device "plug" 2 "Smart Plug" "actuator") _)) _).
    + reflexivity.
    + intros [_ H]. discriminate H.
Defined.

(* ===================================================================== *)
(** * Every outcome of [load_smarthouse_deep] *)
(* ===================================================================== *)

Section LoadOutcome.

Lemma py_getitem_floor (n : nat) (f : Z) :
  py_getitem (seq 0 n) (f - 1)
  = if (0 <=? floor_position (Z.of_nat n) f)
       && (floor_position (Z.of_nat n) f <? Z.of_nat n)
    then Ok (Z.to_nat (floor_position (Z.of_nat n) f))
    else Raise IndexError.
Proof.
  unfold py_getitem, floor_position. rewrite length_seq.
  destruct (_ && _) eqn:E; [|reflexivity].
  apply andb_prop in E as [E1 E2].
  apply Z.leb_le in E1. apply Z.ltb_lt in E2.
  rewrite lookup_seq_lt by lia. reflexivity.
Qed.

Lemma floor_in_range (n f : Z) :
  f <= n ->
  (0 <= floor_position (Z.of_nat (Z.to_nat n)) f < Z.of_nat (Z.to_nat n)
   <-> 1 - n <= f).
Proof.
  intros Hle. unfold floor_position.
  destruct (Z.ltb_spec (f - 1) 0); lia.
Qed.

Lemma room_loop_succeeds_in_range (n : nat) rows st :
  (forall r, In r rows ->
             0 <= floor_position (Z.of_nat n) (r_floor r) < Z.of_nat n) ->
  exists st', for_each (create_room (seq 0 n)) rows st = Ok st'.
Proof.
  revert st. induction rows as [|row rows IH]; intros [sh rd] Hfl; simpl.
  - eauto.
  - rewrite py_getitem_floor.
    destruct (Hfl row (or_introl eq_refl)) as [H1 H2].
    apply Z.leb_le in H1. apply Z.ltb_lt in H2. rewrite H1, H2. simpl.
    apply IH. intros r Hr. apply Hfl. now right.
Qed.

Lemma room_loop_ok_in_range (n : nat) rows st st' :
  for_each (create_room (seq 0 n)) rows st = Ok st' ->
  forall r, In r rows ->
            0 <= floor_position (Z.of_nat n) (r_floor r) < Z.of_nat n.
Proof.
  revert st. induction rows as [|row rows IH]; intros [sh rd]; simpl.
  - intros _ r [].
  - rewrite py_getitem_floor.
    destruct (_ && _) eqn:E; simpl; [|discriminate].
    intros Hrun r [<-|Hr].
    + apply andb_prop in E as [E1 E2].
      apply Z.leb_le in E1. apply Z.ltb_lt in E2. now split.
    + eapply IH; eauto.
Qed.

Lemma sql_max_some (xs : list Z) : xs <> [] -> exists n, sql_max xs = Some n.
Proof. destruct xs; [contradiction|]. simpl. eauto. Qed.

Lemma sql_max_bounds (xs : list Z) (n : Z) :
  sql_max xs = Some n -> In n xs /\ forall x, In x xs -> x <= n.
Proof.
  destruct xs as [|a xs]; [discriminate|]. simpl. intros H. inversion H; subst.
  destruct (fold_max_spec xs a) as (Hin & Hge & Hall). split; [exact Hin|].
  intros x [<-|Hx]; [exact Hge | now apply Hall].
Qed.

(** The outcome of the load in terms of the rows, once [MAX(floor)] is
    [n]. *)
Lemma load_outcome (db : database) (n : Z) :
  sql_max (map r_floor (tbl_rooms db)) = Some n ->
  ((exists r, In r (tbl_rooms db) /\ r_floor r < 1 - n) ->
   load_smarthouse_deep db = Raise IndexError)
  /\ ((forall r, In r (tbl_rooms db) -> 1 - n <= r_floor r) ->
      ((exists d, In d (tbl_devices db)
                  /\ forall r, In r (tbl_rooms db) -> r_id r <> d_room d) ->
       load_smarthouse_deep db = Raise KeyError)
      /\ ((forall d, In d (tbl_devices db) ->
                     exists r, In r (tbl_rooms db) /\ r_id r = d_room d) ->
          exists sh, load_smarthouse_deep db = Ok sh
                     /\ levels sh = map Z.of_nat (seq 1 (Z.to_nat n)))).
Proof.
  intros Hmax. rewrite (load_after_floors db n Hmax).
  destruct (sql_max_bounds _ _ Hmax) as [_ Hle].
  assert (Hfloor : forall r, In r (tbl_rooms db) -> r_floor r <= n).
  { intros r Hr. apply Hle. now apply in_map. }
  split.
  - intros (r & Hr & Hlow).
    destruct (for_each (create_room _) _ _) as [st'|e] eqn:Hrun; simpl.
    + apply room_loop_ok_in_range with (r := r) in Hrun; [|exact Hr].
      apply floor_in_range in Hrun; [lia | now apply Hfloor].
    + apply room_loop_raises in Hrun. now subst e.
  - intros Hin.
    destruct (room_loop_succeeds_in_range (Z.to_nat n) (tbl_rooms db)
                ({| floors :=
                      map (fun i => {| level := Z.of_nat i + 1; rooms := [] |})
                          (seq 0 (Z.to_nat n)) |}, ∅)) as ([sh rd] & Hrun).
    { intros r Hr. apply floor_in_range; auto. }
    rewrite Hrun. simpl.
    apply room_loop_invariant in Hrun as [Hlev Hdom]. split.
    + intros (d & Hd & Hdangling).
      rewrite (device_loop_dangling rd _ sh (select_device_columns d)).
      * reflexivity.
      * now apply in_map.
      * simpl. apply eq_None_not_Some. rewrite Hdom, lookup_empty, is_Some_alt.
        rewrite in_map_iff. intros [[]|(r & Hid & Hr)]. now apply (Hdangling r Hr).
    + intros Hres.
      destruct (device_loop_succeeds rd
                  (map select_device_columns (tbl_devices db)) sh)
        as (sh' & Hdev & Hlev').
      { intros t Ht. apply in_map_iff in Ht as (d & <- & Hd). simpl.
        apply Hdom. right. destruct (Hres d Hd) as (r & Hr & <-).
        now apply in_map. }
      rewrite Hdev. simpl. eexists. split; [reflexivity|].
      rewrite levels_map_devices, Hlev', Hlev. apply levels_created.
Qed.

End LoadOutcome.

Lemma all_or_some {A} (P Q : A -> Prop) (l : list A) :
  (forall x, P x \/ Q x) ->
  (forall x, In x l -> P x) \/ (exists x, In x l /\ Q x).
Proof.
  intros Hdec. induction l as [|a l [IH|(x & Hx & HQ)]].
  - left. intros x [].
  - destruct (Hdec a) as [HP|HQ].
    + left. intros x [<-|Hx]; auto.
    + right. exists a. split; [now left | exact HQ].
  - right. exists x. split; [now right | exact HQ].
Qed.

Lemma rooms_in_range_or_not (db : database) (n : Z) :
  (forall r, In r (tbl_rooms db) -> 1 - n <= r_floor r)
  \/ (exists r, In r (tbl_rooms db) /\ r_floor r < 1 - n).
Proof. apply all_or_some. intros r. lia. Qed.

Lemma devices_resolve_or_not (db : database) :
  (forall d, In d (tbl_devices db) ->
             exists r, In r (tbl_rooms db) /\ r_id r = d_room d)
  \/ (exists d, In d (tbl_devices db)
                /\ forall r, In r (tbl_rooms db) -> r_id r <> d_room d).
Proof.
  apply all_or_some. intros d.
  destruct (all_or_some (fun r => r_id r <> d_room d) (fun r => r_id r = d_room d)
                        (tbl_rooms db)) as [H|H].
  - intros r. destruct (Z.eq_dec (r_id r) (d_room d)); auto.
  - now right.
  - now left.
Qed.

(** X13.  [load_smarthouse_deep] raises [TypeError] exactly when [rooms] has
    no row. *)
Theorem load_TypeError_iff (db : database) :
  load_smarthouse_deep db = Raise TypeError <-> tbl_rooms db = [].
Proof.
  split.
  - intros Hload. destruct (tbl_rooms db) as [|r0 rows] eqn:E; [reflexivity|].
    exfalso.
    destruct (sql_max_some (map r_floor (tbl_rooms db))) as [n Hmax].
    { now rewrite E. }
    destruct (load_outcome db n Hmax) as [Hindex Hrest].
    destruct (rooms_in_range_or_not db n) as [Hin|Hlow].
    + destruct (Hrest Hin) as [Hkey Hok].
      destruct (devices_resolve_or_not db) as [Hres|Hdang].
      * destruct (Hok Hres) as (sh & Hsh & _). rewrite Hsh in Hload. discriminate.
      * rewrite (Hkey Hdang) in Hload. discriminate.
    + rewrite (Hindex Hlow) in Hload. discriminate.
  - intros Hrooms. unfold load_smarthouse_deep. now rewrite Hrooms.
Qed.

(** X14.  With [n] the greatest floor number of [rooms],
    [load_smarthouse_deep] raises [IndexError] exactly when some room row has
    a floor number below [1 - n]: [floors[floor - 1]] accepts the negative
    positions down to [-n], so floor numbers from [1 - n] to 0 do not fail,
    and when no floor number is positive no floor exists and every row
    fails. *)
Theorem load_IndexError_iff (db : database) (n : Z) :
  In n (map r_floor (tbl_rooms db)) ->
  (forall r, In r (tbl_rooms db) -> r_floor r <= n) ->
  (load_smarthouse_deep db = Raise IndexError
   <-> exists r, In r (tbl_rooms db) /\ r_floor r < 1 - n).
Proof.
  intros Hin Hle.
  assert (Hmax : sql_max (map r_floor (tbl_rooms db)) = Some n).
  { apply sql_max_is_maximum; [exact Hin|].
    intros x Hx. apply in_map_iff in Hx as (r & <- & Hr). now apply Hle. }
  destruct (load_outcome db n Hmax) as [Hindex Hrest].
  split; [|exact Hindex].
  intros Hload. destruct (rooms_in_range_or_not db n) as [Hrange|Hlow];
    [|exact Hlow].
  exfalso. destruct (Hrest Hrange) as [Hkey Hok].
  destruct (devices_resolve_or_not db) as [Hres|Hdang].
  - destruct (Hok Hres) as (sh & Hsh & _). rewrite Hsh in Hload. discriminate.
  - rewrite (Hkey Hdang) in Hload. discriminate.
Qed.

Lemma load_IndexError_iff_witness :
  load_smarthouse_deep Fixtures.db_cellar = Raise IndexError.
Proof.
  assert (H1 : In 0 (map r_floor (tbl_rooms Fixtures.db_cellar)))
    by (simpl; now left).
  assert (H2 : forall r, In r (tbl_rooms Fixtures.db_cellar) -> r_floor r <= 0)
    by (intros r [<-|[]]; simpl; lia).
  apply (proj2 (load_IndexError_iff Fixtures.db_cellar 0 H1 H2)).
  eexists. split; [now left | simpl; lia].
Defined.

(** X15.  With [n] the greatest floor number of [rooms], and no quote or NUL
    character in the ids of the actuator rows (so that the state queries are
    the lookups of these ids), [load_smarthouse_deep] returns a house exactly
    when every floor number is at least [1 - n] and every device row
    references the id of a room row; the house then has the floor levels 1 to
    [n].  It raises [KeyError] exactly when every floor number is at least
    [1 - n] and some device row references no room row. *)
Theorem load_returns_iff (db : database) (n : Z) :
  actuator_ids_plain db = true ->
  In n (map r_floor (tbl_rooms db)) ->
  (forall r, In r (tbl_rooms db) -> r_floor r <= n) ->
  ((exists sh, load_smarthouse_deep db = Ok sh)
   <-> (forall r, In r (tbl_rooms db) -> 1 - n <= r_floor r)
       /\ (forall d, In d (tbl_devices db) ->
                     exists r, In r (tbl_rooms db) /\ r_id r = d_room d))
  /\ (load_smarthouse_deep db = Raise KeyError
      <-> (forall r, In r (tbl_rooms db) -> 1 - n <= r_floor r)
          /\ (exists d, In d (tbl_devices db)
                        /\ forall r, In r (tbl_rooms db) -> r_id r <> d_room d))
  /\ (forall sh, load_smarthouse_deep db = Ok sh ->
                 levels sh = map Z.of_nat (seq 1 (Z.to_nat n))).
Proof.
  intros _ Hin Hle.
  assert (Hmax : sql_max (map r_floor (tbl_rooms db)) = Some n).
  { apply sql_max_is_maximum; [exact Hin|].
    intros x Hx. apply in_map_iff in Hx as (r & <- & Hr). now apply Hle. }
  destruct (load_outcome db n Hmax) as [Hindex Hrest].
  assert (Hcases :
    (load_smarthouse_deep db = Raise IndexError
     /\ exists r, In r (tbl_rooms db) /\ r_floor r < 1 - n)
    \/ ((forall r, In r (tbl_rooms db) -> 1 - n <= r_floor r)
        /\ ((load_smarthouse_deep db = Raise KeyError
             /\ exists d, In d (tbl_devices db)
                          /\ forall r, In r (tbl_rooms db) -> r_id r <> d_room d)
            \/ ((forall d, In d (tbl_devices db) ->
                           exists r, In r (tbl_rooms db) /\ r_id r = d_room d)
                /\ exists sh, load_smarthouse_deep db = Ok sh
                              /\ levels sh = map Z.of_nat (seq 1 (Z.to_nat n)))))).
  { destruct (rooms_in_range_or_not db n) as [Hrange|Hlow]; [|left; auto].
    right. split; [exact Hrange|]. destruct (Hrest Hrange) as [Hkey Hok].
    destruct (devices_resolve_or_not db) as [Hres|Hdang]; [right | left]; auto. }
  assert (Hexcl1 : forall r, In r (tbl_rooms db) -> r_floor r < 1 - n ->
                   (forall r, In r (tbl_rooms db) -> 1 - n <= r_floor r) -> False).
  { intros r Hr Hlow Hall. specialize (Hall r Hr). lia. }
  assert (Hexcl2 : forall d, In d (tbl_devices db) ->
                   (forall r, In r (tbl_rooms db) -> r_id r <> d_room d) ->
                   (forall d, In d (tbl_devices db) ->
                              exists r, In r (tbl_rooms db) /\ r_id r = d_room d) ->
                   False).
  { intros d Hd Hdang Hres. destruct (Hres d Hd) as (r & Hr & Heq).
    now apply (Hdang r Hr). }
  destruct Hcases as [[Hidx (r & Hr & Hlow)]
                     |[Hrange [[Hkey (d & Hd & Hdang)]|[Hres (sh & Hsh & Hlev)]]]].
  - rewrite Hidx. split; [|split].
    + split; [intros [sh H]; discriminate | intros [H _]; exfalso; eauto].
    + split; [discriminate | intros [H _]; exfalso; eauto].
    + discriminate.
  - rewrite Hkey. split; [|split].
    + split; [intros [sh H]; discriminate | intros [_ H]; exfalso; eauto].
    + split; [intros _; split; eauto | reflexivity].
    + discriminate.
  - rewrite Hsh. split; [|split].
    + split; [auto | eauto].
    + split; [discriminate | intros [_ (d & Hd & Hdang)]; exfalso; eauto].
    + intros sh' H. inversion H; subst. exact Hlev.
Qed.

Lemma load_returns_iff_witness :
  exists sh, load_smarthouse_deep Examples.db_house = Ok sh.
Proof.
  assert (H1 : In 3 (map r_floor (tbl_rooms Examples.db_house)))
    by (simpl; right; now left).
  assert (H2 : forall r, In r (tbl_rooms Examples.db_house) -> r_floor r <= 3)
    by (intros r [<-|[<-|[]]]; simpl; lia).
  apply (proj1 (load_returns_iff Examples.db_house 3 eq_refl H1 H2)). split.
  - intros r [<-|[<-|[]]]; simpl; lia.
  - intros d [<-|[<-|[<-|[]]]].
    + exists Examples.room1. split; [now left | reflexivity].
    + exists Examples.room3. split; [right; now left | reflexivity].
    + exists Examples.room1. split; [now left | reflexivity].
Defined.

(* ===================================================================== *)
(** * Where the loader puts rooms and devices *)
(* ===================================================================== *)

Section Placement.

Lemma map_alter_same {A B} (F : A -> B) (g : A -> A) (i : nat) (l : list A) :
  (forall x, F (g x) = F x) -> map F (alter g i l) = map F l.
Proof.
  intros H. revert i. induction l as [|x l IH]; intros [|i]; simpl; try reflexivity.
  - now rewrite H.
  - f_equal. apply IH.
Qed.

Lemma load_inversion db sh n :
  load_smarthouse_deep db = Ok sh ->
  sql_max (map r_floor (tbl_rooms db)) = Some n ->
  exists sh1 rd sh2,
    for_each (create_room (seq 0 (Z.to_nat n))) (tbl_rooms db)
      ({| floors :=
            map (fun i => {| level := Z.of_nat i + 1; rooms := [] |})
                (seq 0 (Z.to_nat n)) |}, ∅) = Ok (sh1, rd)
    /\ for_each (create_device rd)
         (map select_device_columns (tbl_devices db)) sh1 = Ok sh2
    /\ sh = map_devices (load_state db) sh2.
Proof.
  intros Hload Hmax. rewrite (load_after_floors db n Hmax) in Hload.
  destruct (for_each (create_room _) _ _) as [[sh1 rd]|] eqn:Hrooms;
    simpl in Hload; [|discriminate].
  destruct (for_each (create_device rd) _ sh1) as [sh2|] eqn:Hdevs;
    simpl in Hload; [|discriminate].
  inversion Hload; subst. exists sh1, rd, sh2. auto.
Qed.

(** ** Rooms *)

Lemma skeleton_register_device sh room dev :
  skeleton (register_device sh room dev) = skeleton sh.
Proof.
  unfold skeleton, register_device. simpl. apply map_alter_same.
  intros fl. simpl. f_equal. apply map_alter_same. reflexivity.
Qed.

Lemma skeleton_map_devices f sh : skeleton (map_devices f sh) = skeleton sh.
Proof.
  unfold skeleton, map_devices. simpl. rewrite map_map. apply map_ext.
  intros fl. simpl. f_equal. rewrite map_map. reflexivity.
Qed.

Lemma skeleton_device_loop (rd : gmap Z (nat * nat)) ts sh sh' :
  for_each (create_device rd) ts sh = Ok sh' -> skeleton sh' = skeleton sh.
Proof.
  revert sh. induction ts as [|t ts IH]; intros sh; simpl.
  - intros H. now inversion H.
  - unfold create_device at 1, py_dict_getitem.
    destruct (rd !! t_room t) as [room|]; simpl; [|discriminate].
    destruct (device_of_tuple t) as [dev|]; simpl; intros H; apply IH in H.
    + now rewrite H, skeleton_register_device.
    + exact H.
Qed.

Lemma skeleton_create_room (fls : list Floor) (idx : nat) size name i :
  (idx < length fls)%nat ->
  map (fun fl => (level fl, map room_entry (rooms fl)))
      (alter (with_rooms
                (alter (fun r => {| room_size := room_size r;
                                    room_name := room_name r;
                                    db_id := Some i; devices := devices r |})
                       (from_option (fun f => length (rooms f)) 0%nat (fls !! idx))))
             idx
             (alter (with_rooms
                       (fun rs => rs ++ [ {| room_size := size; room_name := name;
                                             db_id := None; devices := [] |} ]))
                    idx fls))
  = alter (add_entry (name, size, Some i)) idx
          (map (fun fl => (level fl, map room_entry (rooms fl))) fls).
Proof.
  revert idx. induction fls as [|fl fls IH]; intros [|idx] Hlt; simpl in *; try lia.
  - f_equal. unfold add_entry. simpl. f_equal.
    rewrite <- (Nat.add_0_r (length (rooms fl))), alter_app_r. simpl.
    now rewrite map_app.
  - f_equal. apply IH. lia.
Qed.

Lemma room_loop_skeleton (n : nat) rows sh (rd : gmap Z (nat * nat)) sh' rd' :
  for_each (create_room (seq 0 n)) rows (sh, rd) = Ok (sh', rd') ->
  length (floors sh) = n ->
  skeleton sh'
  = fold_left (fun sk row => alter (add_entry (row_entry row)) (row_position n row) sk)
              rows (skeleton sh).
Proof.
  revert sh rd. induction rows as [|row rows IH]; intros sh rd; simpl.
  - intros H _. now inversion H.
  - unfold create_room at 1. rewrite py_getitem_floor.
    destruct (_ && _) eqn:E; simpl; [|discriminate].
    intros Hrun Hlen. apply IH in Hrun.
    2:{ rewrite <- Hlen. apply length_floors_create_room. }
    rewrite Hrun. f_equal.
    apply andb_prop in E as [E1 E2]. apply Z.leb_le in E1. apply Z.ltb_lt in E2.
    unfold skeleton, set_db_id, register_room. simpl.
    apply skeleton_create_room. unfold row_position. lia.
Qed.

Lemma fold_add_entry_lookup (pos : room_row -> nat) rows
    (sk : list (Z * list (string * Q * option Z))) (i : nat) :
  fold_left (fun sk row => alter (add_entry (row_entry row)) (pos row) sk) rows sk
  !! i
  = (fun p => (fst p,
               snd p ++ map row_entry
                            (filter (fun row => Nat.eqb (pos row) i) rows)))
    <$> sk !! i.
Proof.
  revert sk. induction rows as [|row rows IH]; intros sk; simpl.
  - destruct (sk !! i) as [[l es]|]; simpl; [|reflexivity].
    now rewrite app_nil_r.
  - rewrite IH, list_lookup_alter, filter_cons.
    destruct (decide (pos row = i)) as [->|Hne].
    + rewrite Nat.eqb_refl. simpl.
      destruct (sk !! i) as [[l es]|]; simpl; [|reflexivity].
      now rewrite <- app_assoc.
    + apply Nat.eqb_neq in Hne. rewrite Hne. simpl. reflexivity.
Qed.

Lemma filter_ext_in_bool {A} (P Q : A -> bool) (l : list A) :
  (forall x, In x l -> P x = Q x) ->
  filter (fun x => P x) l = filter (fun x => Q x) l.
Proof.
  induction l as [|x l IH]; intros H; [reflexivity|].
  rewrite !filter_cons, (H x (or_introl eq_refl)), IH; [reflexivity|].
  intros y Hy. apply H. now right.
Qed.

(** The rooms of the floor at position [i] of the loaded house. *)
Lemma loaded_floor_rooms db sh n i fl :
  load_smarthouse_deep db = Ok sh ->
  sql_max (map r_floor (tbl_rooms db)) = Some n ->
  floors sh !! i = Some fl ->
  (i < Z.to_nat n)%nat
  /\ level fl = Z.of_nat i + 1
  /\ map room_entry (rooms fl)
     = map row_entry
           (filter (fun row => Nat.eqb (row_position (Z.to_nat n) row) i)
                   (tbl_rooms db)).
Proof.
  intros Hload Hmax Hfl.
  destruct (load_inversion db sh n Hload Hmax) as (sh1 & rd & sh2 & Hrooms & Hdevs & ->).
  assert (Hsk : skeleton (map_devices (load_state db) sh2) !! i
                = Some (level fl, map room_entry (rooms fl))).
  { unfold skeleton. rewrite list_lookup_fmap, Hfl. reflexivity. }
  rewrite skeleton_map_devices, (skeleton_device_loop _ _ _ _ Hdevs) in Hsk.
  rewrite (room_loop_skeleton _ _ _ _ _ _ Hrooms) in Hsk.
  2:{ simpl. now rewrite length_map, length_seq. }
  rewrite fold_add_entry_lookup in Hsk. unfold skeleton in Hsk. simpl in Hsk.
  rewrite map_map in Hsk. simpl in Hsk.
  change (map (fun x : nat => (Z.of_nat x + 1, @nil (string * Q * option Z)))
              (seq 0 (Z.to_nat n)))
    with ((fun x : nat => (Z.of_nat x + 1, @nil (string * Q * option Z)))
            <$> seq 0 (Z.to_nat n)) in Hsk.
  rewrite list_lookup_fmap in Hsk.
  destruct (seq 0 (Z.to_nat n) !! i) as [j|] eqn:Ej; simpl in Hsk; [|discriminate].
  apply lookup_seq in Ej as [-> Hlt]. simpl in Hsk.
  inversion Hsk as [[Hlevel Hrooms']]. split; [exact Hlt|]. split; [lia | reflexivity].
Qed.

(** The same by level: the rows of floor number [l] or [l - n]. *)
Lemma loaded_floor_entries db sh n i fl :
  load_smarthouse_deep db = Ok sh ->
  sql_max (map r_floor (tbl_rooms db)) = Some n ->
  floors sh !! i = Some fl ->
  map room_entry (rooms fl)
  = map row_entry
        (filter (fun row => Z.eqb (r_floor row) (level fl)
                            || Z.eqb (r_floor row) (level fl - n))
                (tbl_rooms db)).
Proof.
  intros Hload Hmax Hi.
  destruct (loaded_floor_rooms db sh n i fl Hload Hmax Hi) as (Hi' & Hlevel & ->).
  f_equal.
  destruct (load_inversion db sh n Hload Hmax) as (sh1 & rd & sh2 & Hrooms & _ & Heq).
  apply filter_ext_in_bool. intros row Hrow.
  pose proof (room_loop_ok_in_range _ _ _ _ Hrooms row Hrow) as Hrange.
  unfold row_position, floor_position in *.
  destruct (Z.ltb_spec (r_floor row - 1) 0);
    destruct (Nat.eqb_spec (Z.to_nat (r_floor row - 1 + Z.of_nat (Z.to_nat n))) i);
    destruct (Nat.eqb_spec (Z.to_nat (r_floor row - 1)) i);
    destruct (Z.eqb_spec (r_floor row) (level fl));
    destruct (Z.eqb_spec (r_floor row) (level fl - n)); simpl; try reflexivity; lia.
Qed.

Lemma levels_skeleton sh : levels sh = map fst (skeleton sh).
Proof. unfold levels, skeleton. now rewrite map_map. Qed.

Lemma load_levels db sh n :
  load_smarthouse_deep db = Ok sh ->
  sql_max (map r_floor (tbl_rooms db)) = Some n ->
  levels sh = map Z.of_nat (seq 1 (Z.to_nat n)).
Proof.
  intros Hload Hmax.
  destruct (load_inversion db sh n Hload Hmax) as (sh1 & rd & sh2 & Hrooms & Hdevs & ->).
  rewrite levels_map_devices, levels_skeleton, (skeleton_device_loop _ _ _ _ Hdevs).
  rewrite <- levels_skeleton.
  apply room_loop_invariant in Hrooms as [-> _]. apply levels_created.
Qed.

End Placement.

(** X16.  In the house the loader returns, with [n] the greatest floor
    number, the rooms of the floor of level [l] are, in row order, the room
    rows whose floor number is [l] or [l - n], each with its name, its area
    and its id as [db_id]: a row with floor number 0 is a room of the top
    floor, and every room row is a room of exactly one floor. *)
Theorem loaded_rooms_by_floor (db : database) (sh : SmartHouse) (n : Z)
    (fl : Floor) :
  load_smarthouse_deep db = Ok sh ->
  In n (map r_floor (tbl_rooms db)) ->
  (forall r, In r (tbl_rooms db) -> r_floor r <= n) ->
  In fl (floors sh) ->
  map room_entry (rooms fl)
  = map row_entry
        (filter (fun row => Z.eqb (r_floor row) (level fl)
                            || Z.eqb (r_floor row) (level fl - n))
                (tbl_rooms db)).
Proof.
  intros Hload Hin Hle Hfl.
  assert (Hmax : sql_max (map r_floor (tbl_rooms db)) = Some n).
  { apply sql_max_is_maximum; [exact Hin|].
    intros x Hx. apply in_map_iff in Hx as (r & <- & Hr). now apply Hle. }
  apply list_elem_of_In, list_elem_of_lookup in Hfl as [i Hi].
  now apply (loaded_floor_entries db sh n i fl).
Qed.

Lemma loaded_rooms_by_floor_witness :
  map room_name (rooms Fixtures.top_floor_below_ground) = ["Loft"; "Cellar"]
  /\ map room_entry (rooms Fixtures.top_floor_below_ground)
     = map row_entry
           (filter (fun row => Z.eqb (r_floor row) 2 || Z.eqb (r_floor row) (2 - 2))
                   (tbl_rooms Fixtures.db_below_ground)).
Proof.
  split; [reflexivity|].
  apply (loaded_rooms_by_floor Fixtures.db_below_ground
           Fixtures.house_below_ground 2 Fixtures.top_floor_below_ground).
  - reflexivity.
  - simpl. now left.
  - intros r [<-|[<-|[<-|[]]]]; simpl; lia.
  - simpl. right. now left.
Defined.

(* ===================================================================== *)
(** * The devices of the loaded house *)
(* ===================================================================== *)

Section LoadedDeviceList.

Lemma concat_map_alter {A B} (F : A -> list B) (g : A -> A) (extra : list B)
    (l : list A) (i : nat) (x : A) :
  l !! i = Some x ->
  F (g x) ≡ₚ F x ++ extra ->
  concat (map F (alter g i l)) ≡ₚ concat (map F l) ++ extra.
Proof.
  revert i. induction l as [|y l IH]; intros [|i]; simpl; try discriminate.
  - intros H Hperm. inversion H; subst. rewrite Hperm.
    rewrite <- !app_assoc. apply Permutation_app_head. apply Permutation_app_comm.
  - intros H Hperm. rewrite (IH i H Hperm). now rewrite app_assoc.
Qed.

Lemma get_devices_register_device sh room dev :
  valid_ref sh room ->
  get_devices (register_device sh room dev) ≡ₚ get_devices sh ++ [dev].
Proof.
  intros (r & fl & Hfl & Hr). unfold get_devices, register_device. simpl.
  apply (concat_map_alter _ _ [dev] _ _ fl Hfl). simpl.
  apply (concat_map_alter devices _ [dev] _ _ r Hr). reflexivity.
Qed.

Lemma device_loop_device_list (rd : gmap Z (nat * nat)) ts sh sh' :
  for_each (create_device rd) ts sh = Ok sh' ->
  (forall k ref, rd !! k = Some ref -> valid_ref sh ref) ->
  get_devices sh'
  ≡ₚ get_devices sh
     ++ flat_map (fun t => match device_of_tuple t with
                           | Some dev => [dev]
                           | None => []
                           end) ts.
Proof.
  revert sh. induction ts as [|t ts IH]; intros sh; simpl.
  - intros H _. inversion H; subst. now rewrite app_nil_r.
  - unfold create_device at 1, py_dict_getitem.
    destruct (rd !! t_room t) as [room|] eqn:Eroom; simpl; [|discriminate].
    destruct (device_of_tuple t) as [dev|]; simpl; intros Hrun Hvalid.
    + rewrite (IH _ Hrun).
      2:{ intros k ref Hk. apply valid_ref_register_device. eauto. }
      rewrite get_devices_register_device by eauto.
      now rewrite <- app_assoc.
    + now apply IH.
Qed.

Lemma get_devices_create_room sh fl size name i :
  get_devices (set_db_id (fst (register_room sh fl size name))
                         (snd (register_room sh fl size name)) i)
  = get_devices sh.
Proof.
  unfold get_devices, set_db_id, register_room. simpl.
  rewrite map_alter_same.
  - apply f_equal. apply map_alter_same. intros f. simpl.
    rewrite map_app, concat_app. simpl. now rewrite app_nil_r.
  - intros f. simpl. f_equal. apply map_alter_same. reflexivity.
Qed.

Lemma room_loop_get_devices fls rows sh (rd : gmap Z (nat * nat)) sh' rd' :
  for_each (create_room fls) rows (sh, rd) = Ok (sh', rd') ->
  get_devices sh' = get_devices sh.
Proof.
  revert sh rd. induction rows as [|row rows IH]; intros sh rd; simpl.
  - intros H. now inversion H.
  - unfold create_room at 1.
    destruct (py_getitem fls (r_floor row - 1)) as [fl|]; simpl; [|discriminate].
    intros H. apply IH in H. rewrite H. apply get_devices_create_room.
Qed.

Lemma get_devices_new_floors (l : list nat) :
  get_devices {| floors := map (fun i => {| level := Z.of_nat i + 1; rooms := [] |}) l |}
  = [].
Proof. unfold get_devices. simpl. induction l; simpl; auto. Qed.

Lemma flat_map_map {A B C} (f : B -> list C) (g : A -> B) (l : list A) :
  flat_map f (map g l) = flat_map (fun x => f (g x)) l.
Proof. induction l as [|x l IH]; simpl; [reflexivity | now rewrite IH]. Qed.

Lemma length_devices_of_rows db :
  length (devices_of_rows db)
  = length (filter (fun d => String.eqb (d_category d) "sensor"
                             || String.eqb (d_category d) "actuator")
                   (tbl_devices db)).
Proof.
  unfold devices_of_rows.
  induction (tbl_devices db) as [|d ds IH]; [reflexivity|].
  simpl. rewrite length_app, IH, filter_cons. unfold device_of_tuple. simpl.
  destruct (String.eqb (d_category d) "sensor"); simpl; [reflexivity|].
  destruct (String.eqb (d_category d) "actuator"); simpl; [|reflexivity].
  destruct (String.eqb (d_kind d) "Heat Pump"); reflexivity.
Qed.

End LoadedDeviceList.

(** X17.  When no id of an actuator row holds a quote or NUL character, the
    devices
    of the house the loader returns are, up to their order, the devices made
    of the device rows of category ['sensor'] or ['actuator'], one for each
    such row, with their state loaded; a row of another category gives no
    device. *)
Theorem loaded_devices_are_the_rows (db : database) (sh : SmartHouse) :
  actuator_ids_plain db = true ->
  load_smarthouse_deep db = Ok sh ->
  get_devices sh ≡ₚ map (load_state db) (devices_of_rows db)
  /\ length (get_devices sh)
     = length (filter (fun d => String.eqb (d_category d) "sensor"
                                || String.eqb (d_category d) "actuator")
                      (tbl_devices db)).
Proof.
  intros _ Hload.
  destruct (sql_max (map r_floor (tbl_rooms db))) as [n|] eqn:Hmax.
  2:{ unfold load_smarthouse_deep in Hload. rewrite Hmax in Hload. discriminate. }
  destruct (load_inversion db sh n Hload Hmax) as (sh1 & rd & sh2 & Hrooms & Hdevs & ->).
  assert (Hperm : get_devices (map_devices (load_state db) sh2)
                  ≡ₚ map (load_state db) (devices_of_rows db)).
  { rewrite get_devices_map_devices. apply Permutation_map.
    rewrite (device_loop_device_list _ _ _ _ Hdevs).
    - rewrite (room_loop_get_devices _ _ _ _ _ _ Hrooms), get_devices_new_floors.
      simpl. unfold devices_of_rows. now rewrite flat_map_map.
    - eapply room_loop_refs_valid; [exact Hrooms | |].
      + simpl. now rewrite length_map, length_seq.
      + intros k ref Hk. rewrite lookup_empty in Hk. discriminate. }
  split; [exact Hperm|].
  rewrite (Permutation_length Hperm), length_map. apply length_devices_of_rows.
Qed.

Lemma loaded_devices_are_the_rows_witness :
  length (get_devices Examples.house_loaded) = 3%nat.
Proof.
  apply (proj2 (loaded_devices_are_the_rows Examples.db_house
                  Examples.house_loaded eq_refl eq_refl)).
Defined.

(* ===================================================================== *)
(** * The daily averages, date by date *)
(* ===================================================================== *)

Section DailyAverages.

Lemma distinct_In (xs : list string) (x : string) :
  In x xs -> In x (distinct xs).
Proof.
  induction xs as [|y xs IH]; simpl; [tauto|].
  intros [->|Hx]; [now left|].
  destruct (String.eqb_spec x y) as [->|Hne]; [now left|]. right.
  apply list_elem_of_In, list_elem_of_filter. split.
  - apply Is_true_true. apply negb_true_iff. now apply String.eqb_neq.
  - apply list_elem_of_In. now apply IH.
Qed.

Lemma NoDup_distinct (xs : list string) : List.NoDup (distinct xs).
Proof.
  induction xs as [|y xs IH]; simpl; constructor.
  - intros Hin. apply list_elem_of_In, list_elem_of_filter in Hin as [H _].
    apply Is_true_true, negb_true_iff in H. now rewrite String.eqb_refl in H.
  - apply NoDup_ListNoDup, NoDup_filter, NoDup_ListNoDup. exact IH.
Qed.

Lemma filter_none_nil {A} (P : A -> bool) (l : list A) :
  (forall x, In x l -> P x = false) -> filter (fun x => P x) l = [].
Proof.
  induction l as [|x l IH]; intros H; [reflexivity|].
  rewrite filter_cons, (H x (or_introl eq_refl)). simpl.
  apply IH. intros y Hy. apply H. now right.
Qed.

Lemma filter_filter_bool {A} (P Q : A -> bool) (l : list A) :
  filter (fun x => P x) (filter (fun x => Q x) l)
  = filter (fun x => Q x && P x) l.
Proof.
  induction l as [|x l IH]; [reflexivity|].
  rewrite !filter_cons. destruct (Q x); simpl.
  - rewrite filter_cons. destruct (P x); simpl; now rewrite IH.
  - exact IH.
Qed.

Lemma flat_map_if_filter {A} (P : A -> bool) (l : list A) :
  flat_map (fun x => if P x then [x] else []) l = filter (fun x => P x) l.
Proof.
  induction l as [|x l IH]; [reflexivity|].
  simpl. rewrite filter_cons, IH. now destruct (P x).
Qed.

(** The dict built from the rows of the grouped query. *)
Lemma fold_insert_groups (g : string -> option Q) (ds : list string)
    (m : gmap string Q) (k : string) :
  fold_left (fun acc row => <[fst row := snd row]> acc)
            (flat_map (fun d => match g d with
                                | Some a => [(d, a)]
                                | None => []
                                end) ds) m
  !! k
  = match g k with
    | Some a => if existsb (String.eqb k) ds then Some a else m !! k
    | None => m !! k
    end.
Proof.
  revert m. induction ds as [|d ds IH]; intros m; simpl.
  - now destruct (g k).
  - rewrite fold_left_app, IH.
    destruct (String.eqb_spec k d) as [->|Hne]; simpl.
    + destruct (g d) as [a|] eqn:Eg; simpl; [|reflexivity].
      rewrite lookup_insert_eq. now destruct (existsb _ ds).
    + assert (Hm : (fold_left (fun acc row => <[fst row := snd row]> acc)
                              match g d with
                              | Some a => [(d, a)]
                              | None => []
                              end m) !! k = m !! k).
      { destruct (g d); simpl; [now rewrite lookup_insert_ne | reflexivity]. }
      now rewrite Hm.
Qed.

Lemma daily_average_of_rows (rows : list measurement_row) (date : string) :
  fold_left (fun acc row => <[fst row := snd row]> acc) (daily_averages rows)
            (∅ : gmap string Q)
  !! date
  = sql_avg (map m_value
                 (filter (fun m => String.eqb (sql_date (m_ts m)) date) rows)).
Proof.
  unfold daily_averages.
  rewrite (fold_insert_groups
             (fun d => sql_avg (map m_value
                (filter (fun m => String.eqb (sql_date (m_ts m)) d) rows)))).
  rewrite lookup_empty.
  destruct (sql_avg _) as [a|] eqn:E; [|reflexivity].
  destruct (filter (fun m => String.eqb (sql_date (m_ts m)) date) rows)
    as [|m l] eqn:Ef; [discriminate|].
  assert (Hm : m ∈ filter (fun m => String.eqb (sql_date (m_ts m)) date) rows).
  { rewrite Ef. left. }
  apply list_elem_of_filter in Hm as [Hd Hm].
  apply Is_true_true, String.eqb_eq in Hd.
  assert (Hex : existsb (String.eqb date)
                        (distinct (map (fun m => sql_date (m_ts m)) rows)) = true).
  { apply existsb_exists. exists date. split; [|apply String.eqb_refl].
    rewrite <- Hd. apply distinct_In.
    apply (in_map (fun m => sql_date (m_ts m))). now apply list_elem_of_In. }
  now rewrite Hex.
Qed.

Lemma existsb_pointwise {A} (f g : A -> bool) (l : list A) :
  (forall x, f x = g x) -> existsb f l = existsb g l.
Proof.
  intros H. induction l as [|x l IH]; simpl; [reflexivity|]. now rewrite H, IH.
Qed.

End DailyAverages.

Lemma In_temperature_rows (db : database) (name : string)
    (from_date until_date : option string) (m : measurement_row) :
  In m (temperature_rows db name from_date until_date)
  <-> In m (tbl_measurements db)
      /\ (exists d r, In d (tbl_devices db) /\ In r (tbl_rooms db)
                      /\ m_device m = d_id d /\ d_room d = r_id r
                      /\ r_name r = name)
      /\ m_unit m = temperature_unit
      /\ from_condition from_date (m_ts m) = true
      /\ until_condition until_date (m_ts m) = true.
Proof.
  unfold temperature_rows. rewrite in_flat_map. split.
  - intros (m0 & Hm0 & Hin). apply in_flat_map in Hin as (d & Hd & Hin).
    destruct (String.eqb_spec (m_device m0) (d_id d)) as [E1|]; [|destruct Hin].
    apply in_flat_map in Hin as (r & Hr & Hin).
    destruct (Z.eqb_spec (d_room d) (r_id r)) as [E2|]; [|destruct Hin].
    destruct (String.eqb_spec (r_name r) name) as [E3|]; [|destruct Hin].
    destruct (String.eqb_spec (m_unit m0) temperature_unit) as [E4|]; [|destruct Hin].
    destruct (from_condition from_date (m_ts m0)) eqn:E5; [|destruct Hin].
    destruct (until_condition until_date (m_ts m0)) eqn:E6; [|destruct Hin].
    destruct Hin as [<-|[]]. split; [exact Hm0|]. split; [|auto].
    exists d, r. auto.
  - intros (Hm & (d & r & Hd & Hr & E1 & E2 & E3) & E4 & E5 & E6).
    exists m. split; [exact Hm|]. apply in_flat_map. exists d. split; [exact Hd|].
    rewrite E1, String.eqb_refl. apply in_flat_map. exists r. split; [exact Hr|].
    rewrite E2, Z.eqb_refl, E3, String.eqb_refl, E4, String.eqb_refl, E5, E6.
    now left.
Qed.

(** X18.  With timestamps in the form [datetime('now')] writes, a date is a
    key of the dict [calc_avg_temperatures_in_room] returns exactly when some
    measurement of that date has the temperature unit, comes from a device of
    a room of the given name and passes the two text comparisons with the
    bounds: no other date is a key, and none of these dates is left out. *)
Theorem daily_average_dates (db : database) (room : Room)
    (from_date until_date : option string) (date : string) :
  (forall m, In m (tbl_measurements db) -> canonical_ts (m_ts m) = true) ->
  (is_Some (calc_avg_temperatures_in_room db room from_date until_date !! date)
   <-> exists m d r,
         In m (tbl_measurements db) /\ In d (tbl_devices db)
         /\ In r (tbl_rooms db)
         /\ m_device m = d_id d /\ d_room d = r_id r
         /\ r_name r = room_name room
         /\ m_unit m = temperature_unit
         /\ from_condition from_date (m_ts m) = true
         /\ until_condition until_date (m_ts m) = true
         /\ sql_date (m_ts m) = date).
Proof.
  intros _. unfold calc_avg_temperatures_in_room. rewrite daily_average_of_rows.
  set (rows := temperature_rows db (room_name room) from_date until_date).
  split.
  - intros Hsome.
    destruct (filter (fun m => String.eqb (sql_date (m_ts m)) date) rows)
      as [|m l] eqn:Ef.
    { simpl in Hsome. now destruct Hsome. }
    assert (Hm : m ∈ filter (fun m => String.eqb (sql_date (m_ts m)) date) rows).
    { rewrite Ef. left. }
    apply list_elem_of_filter in Hm as [Hd Hm].
    apply Is_true_true, String.eqb_eq in Hd.
    apply list_elem_of_In, In_temperature_rows in Hm
      as (Hin & (d & r & Hdev & Hr & E1 & E2 & E3) & E4 & E5 & E6).
    exists m, d, r. auto 12.
  - intros (m & d & r & Hin & Hdev & Hr & E1 & E2 & E3 & E4 & E5 & E6 & Hd).
    assert (Hm : m ∈ filter (fun m => String.eqb (sql_date (m_ts m)) date) rows).
    { apply list_elem_of_filter. split.
      - apply Is_true_true, String.eqb_eq. exact Hd.
      - apply list_elem_of_In, In_temperature_rows.
        split; [exact Hin|]. split; [|auto]. exists d, r. auto. }
    destruct (filter (fun m => String.eqb (sql_date (m_ts m)) date) rows)
      as [|m' l]; [inversion Hm|].
    simpl. eauto.
Qed.

Lemma daily_average_dates_witness :
  is_Some (calc_avg_temperatures_in_room Examples.db_temperature
             Examples.bathroom None None !! "2024-01-27")
  /\ ~ is_Some (calc_avg_temperatures_in_room Examples.db_temperature
                  Examples.bathroom None None !! "2024-01-28").
Proof.
  assert (Hts : forall m, In m (tbl_measurements Examples.db_temperature) ->
                          canonical_ts (m_ts m) = true).
  { intros m [<-|[<-|[]]]; reflexivity. }
  split.
  - apply (proj2 (daily_average_dates Examples.db_temperature Examples.bathroom
                    None None "2024-01-27" Hts)).
    exists (Examples.measurement "t1" 20%Q temperature_unit "2024-01-27 10:00:00"),
           (Examples.device "t1" 1 "Temperature Sensor" "sensor"),
           Examples.room1.
    simpl. repeat split; auto.
  - intros Hsome.
    apply (proj1 (daily_average_dates Examples.db_temperature Examples.bathroom
                    None None "2024-01-28" Hts)) in Hsome
      as (m & d & r & Hin & _ & _ & _ & _ & _ & _ & _ & _ & Hd).
    destruct Hin as [<-|[<-|[]]]; discriminate Hd.
Defined.

(** X19.  For a room name that no room row has,
    [calc_avg_temperatures_in_room] returns the empty dict; it does not
    raise, unlike [calc_hours_with_humidity_above]. *)
Theorem avg_temperatures_unknown_room (db : database) (room : Room)
    (from_date until_date : option string) :
  (forall r, In r (tbl_rooms db) -> r_name r <> room_name room) ->
  calc_avg_temperatures_in_room db room from_date until_date = ∅.
Proof.
  intros Hno. unfold calc_avg_temperatures_in_room.
  assert (temperature_rows db (room_name room) from_date until_date = []) as ->.
  { unfold temperature_rows. apply flat_map_nil. intros m _.
    apply flat_map_nil. intros d _.
    destruct (String.eqb (m_device m) (d_id d)); [|reflexivity].
    apply flat_map_nil. intros r Hr.
    assert (String.eqb (r_name r) (room_name room) = false) as ->.
    { apply String.eqb_neq. now apply Hno. }
    now rewrite andb_false_r. }
  reflexivity.
Qed.

Lemma avg_temperatures_unknown_room_witness :
  calc_avg_temperatures_in_room Examples.db_temperature Examples.garage None None
  = ∅.
Proof.
  apply (avg_temperatures_unknown_room Examples.db_temperature Examples.garage).
  intros r [<-|[]]. discriminate.
Defined.

(* ===================================================================== *)
(** * The hours [calc_hours_with_humidity_above] reports *)
(* ===================================================================== *)

Section ReportedHours.

Lemma map_result_Forall2 {A B} (f : A -> result B) (l : list A) (ys : list B) :
  map_result f l = Ok ys -> Forall2 (fun x y => f x = Ok y) l ys.
Proof.
  revert ys. induction l as [|x l IH]; intros ys; simpl.
  - intros H. inversion H. constructor.
  - destruct (f x) as [y|] eqn:Ex; simpl; [|discriminate].
    destruct (map_result f l) as [ys'|]; simpl; [|discriminate].
    intros H. inversion H; subst. constructor; auto.
Qed.

Lemma Forall2_In_r {A B} (R : A -> B -> Prop) l ys y :
  Forall2 R l ys -> In y ys -> exists x, In x l /\ R x y.
Proof.
  induction 1 as [|x y' l ys Hxy HF IH]; simpl; [intros []|].
  intros [<-|Hy]; [eauto|]. destruct (IH Hy) as (x' & Hx' & HR). eauto.
Qed.

Lemma Forall2_NoDup {A B} (R : A -> B -> Prop) l ys :
  Forall2 R l ys ->
  (forall x x' y, In x l -> In x' l -> R x y -> R x' y -> x = x') ->
  List.NoDup l -> List.NoDup ys.
Proof.
  induction 1 as [|x y l ys Hxy HF IH]; intros Hinj Hnd; [constructor|].
  inversion Hnd as [|? ? Hnot Hnd']; subst. constructor.
  - intros Hy. destruct (Forall2_In_r _ _ _ _ HF Hy) as (x' & Hx' & HR).
    apply Hnot. rewrite (Hinj x x' y); simpl; auto.
  - apply IH; [|exact Hnd']. intros a a' b Ha Ha'. apply Hinj; now right.
Qed.

Lemma group_hours (rows : list humidity_row) :
  map fst (group_by_hour_having rows)
  = filter (fun hour =>
              3 <? Z.of_nat (length (filter (fun row => String.eqb (h_hour row) hour)
                                            rows)))
           (distinct (map h_hour rows)).
Proof.
  unfold group_by_hour_having.
  induction (distinct (map h_hour rows)) as [|hour ds IH]; [reflexivity|].
  simpl. rewrite map_app, IH, filter_cons.
  now destruct (3 <? _).
Qed.

Lemma In_group_by_hour_having (rows : list humidity_row) (p : string * Z) :
  In p (group_by_hour_having rows)
  <-> In (fst p) (map h_hour rows)
      /\ snd p = Z.of_nat (length (filter (fun row => String.eqb (h_hour row) (fst p))
                                          rows))
      /\ 3 < snd p.
Proof.
  unfold group_by_hour_having. rewrite in_flat_map. split.
  - intros (hour & Hhour & Hp). apply In_distinct in Hhour.
    destruct (Z.ltb_spec 3
                (Z.of_nat (length (filter (fun row => String.eqb (h_hour row) hour)
                                          rows)))); [|destruct Hp].
    destruct Hp as [<-|[]]. simpl. auto.
  - intros (Hin & Hcount & Hgt). exists (fst p). split; [now apply distinct_In|].
    rewrite <- Hcount. destruct (Z.ltb_spec 3 (snd p)); [|lia].
    left. now destruct p.
Qed.

Lemma py_int_listed_injective (a b : string) (n : Z) :
  hour_in_list a = true -> hour_in_list b = true ->
  py_int a = Ok n -> py_int b = Ok n -> a = b.
Proof.
  unfold hour_in_list. rewrite !existsb_exists.
  intros (x & Hx & Ha) (y & Hy & Hb).
  apply String.eqb_eq in Ha, Hb. subst x y. simpl in Hx, Hy.
  repeat (destruct Hx as [<-|Hx]);
    repeat (destruct Hy as [<-|Hy]);
    try contradiction; vm_compute; intros H1 H2; congruence.
Qed.

Lemma sorted_le_NoDup_lt (l : list Z) :
  StronglySorted Z.le l -> List.NoDup l -> StronglySorted Z.lt l.
Proof.
  induction 1 as [|a l Hs IH Hall]; intros Hnd; constructor.
  - apply IH. now inversion Hnd.
  - inversion Hnd as [|? ? Hnot _]; subst.
    rewrite List.Forall_forall in *. intros x Hx.
    specialize (Hall x Hx). assert (x <> a) by (intros ->; contradiction). lia.
Qed.

(** The pieces of the result for a stored room. *)
Lemma calc_hours_result (db : database) (room : Room) (date : string)
    (row : room_row) :
  fetchone (filter (fun r => String.eqb (r_name r) (room_name room))
                   (tbl_rooms db)) = Some row ->
  exists hs,
    map_result (fun p : string * Z => py_int (fst p))
      (group_by_hour_having
         (filter (fun hr => hour_in_list (h_hour hr)
                            && sql_gt (h_value hr) (h_avg_humidity hr))
                 (humidity_subquery db (r_id row) date))) = Ok hs
    /\ calc_hours_with_humidity_above db room date = Ok (sorted hs).
Proof.
  intros Hrow. unfold calc_hours_with_humidity_above. rewrite Hrow.
  match goal with
  | |- context [map_result ?f ?l] =>
      destruct (map_result_succeeds f (fun _ => True) l) as (hs & Hhs & _)
  end.
  - intros p Hp. apply group_by_hour_having_hours in Hp as [Hp _].
    apply in_map_iff in Hp as (hr & Hhour & Hhr).
    apply list_elem_of_In, list_elem_of_filter in Hhr as [HP _].
    apply andb_True in HP as [HP _]. apply Is_true_true in HP.
    rewrite <- Hhour. destruct (hour_in_list_int _ HP) as (n & Hn & _). eauto.
  - exists hs. split; [exact Hhs|]. now rewrite Hhs.
Qed.

Lemma listed_of_group (sub : list humidity_row) (p : string * Z) :
  In p (group_by_hour_having
          (filter (fun hr => hour_in_list (h_hour hr)
                             && sql_gt (h_value hr) (h_avg_humidity hr)) sub)) ->
  hour_in_list (fst p) = true.
Proof.
  intros Hp. apply In_group_by_hour_having in Hp as (Hin & _ & _).
  apply in_map_iff in Hin as (hr & <- & Hhr).
  apply list_elem_of_In, list_elem_of_filter in Hhr as [HP _].
  apply andb_True in HP as [HP _]. now apply Is_true_true in HP.
Qed.

End ReportedHours.

(** X20.  For a stored room the list [calc_hours_with_humidity_above]
    returns is strictly ascending: sorted and without a repeated hour. *)
Theorem reported_hours_strictly_ascending (db : database) (room : Room)
    (date : string) (row : room_row) :
  fetchone (filter (fun r => String.eqb (r_name r) (room_name room))
                   (tbl_rooms db)) = Some row ->
  exists hours,
    calc_hours_with_humidity_above db room date = Ok hours
    /\ StronglySorted Z.lt hours.
Proof.
  intros Hrow.
  destruct (calc_hours_result db room date row Hrow) as (hs & Hhs & Hcalc).
  exists (sorted hs). split; [exact Hcalc|].
  apply sorted_le_NoDup_lt.
  - unfold sorted. apply StronglySorted_merge_sort; apply _.
  - unfold sorted. apply NoDup_ListNoDup. rewrite merge_sort_Permutation.
    apply NoDup_ListNoDup.
    apply map_result_Forall2 in Hhs.
    eapply (Forall2_NoDup _ _ _ Hhs).
    + intros p p' n Hp Hp' Hn Hn'.
      assert (Hfst : fst p = fst p').
      { eapply py_int_listed_injective; eauto using listed_of_group. }
      apply In_group_by_hour_having in Hp as (_ & Hc & _).
      apply In_group_by_hour_having in Hp' as (_ & Hc' & _).
      destruct p, p'. simpl in *. subst. reflexivity.
    + match goal with
      | |- List.NoDup ?l =>
          assert (Hfst : List.NoDup (map fst l))
      end.
      { rewrite group_hours. apply NoDup_ListNoDup, NoDup_filter, NoDup_ListNoDup.
        apply NoDup_distinct. }
      revert Hfst. apply NoDup_map_inv.
Qed.

Lemma reported_hours_strictly_ascending_witness :
  exists hours,
    calc_hours_with_humidity_above
      (Examples.db_humidity "07") Examples.bathroom "2024-01-27" = Ok hours
    /\ StronglySorted Z.lt hours.
Proof.
  apply (reported_hours_strictly_ascending (Examples.db_humidity "07")
           Examples.bathroom "2024-01-27" Examples.room1).
  reflexivity.
Defined.

Lemma reported_hours_are_listed_witness :
  exists hours,
    calc_hours_with_humidity_above
      (Examples.db_humidity "10") Examples.bathroom "2024-01-27" = Ok hours
    /\ forall h, In h hours -> In h [7; 8; 9; 12; 18].
Proof.
  apply (reported_hours_are_listed (Examples.db_humidity "10")
           Examples.bathroom "2024-01-27" Examples.room1).
  reflexivity.
Defined.

Lemma length_filter_and_le {A} (P Q : A -> bool) (l : list A) :
  (length (filter (fun x => Q x && P x) l) <= length (filter (fun x => P x) l))%nat.
Proof.
  induction l as [|x l IH]; [reflexivity|].
  rewrite !filter_cons. destruct (Q x), (P x); simpl; lia.
Qed.

(** The rows of the inner query of one hour are the rows of the join that
    [humidity_pair] keeps. *)
Lemma hour_count_one_measurement (avg : measurement_row -> device_row -> option Q)
    (room_id : Z) (date hour : string) (m : measurement_row)
    (ds : list device_row) :
  length (filter (fun hr => String.eqb (h_hour hr) hour)
            (flat_map (fun d =>
               if String.eqb (m_device m) (d_id d) && Z.eqb (d_room d) room_id
                  && String.eqb (m_unit m) "%"
                  && String.eqb (sql_date (m_ts m)) date
                  && String.eqb (d_kind d) humidity_kind
               then [ {| h_hour := sql_hour (m_ts m); h_value := m_value m;
                         h_avg_humidity := avg m d |} ]
               else []) ds))
  = length (filter (fun p => humidity_pair room_id date hour p)
                   (map (fun d => (m, d)) ds)).
Proof.
  induction ds as [|d ds IHd]; [reflexivity|].
  simpl. rewrite filter_app, length_app, IHd, (filter_cons _ (m, d)).
  set (c := String.eqb (m_device m) (d_id d) && Z.eqb (d_room d) room_id
            && String.eqb (m_unit m) "%" && String.eqb (sql_date (m_ts m)) date
            && String.eqb (d_kind d) humidity_kind).
  assert (Hp : humidity_pair room_id date hour (m, d)
               = c && String.eqb (sql_hour (m_ts m)) hour) by reflexivity.
  rewrite Hp. destruct c; simpl; [|reflexivity].
  rewrite filter_cons. simpl.
  destruct (String.eqb (sql_hour (m_ts m)) hour); reflexivity.
Qed.

Lemma hour_count_join (avg : measurement_row -> device_row -> option Q)
    (room_id : Z) (date hour : string) (ms : list measurement_row)
    (ds : list device_row) :
  length (filter (fun hr => String.eqb (h_hour hr) hour)
            (flat_map (fun m =>
               flat_map (fun d =>
                 if String.eqb (m_device m) (d_id d) && Z.eqb (d_room d) room_id
                    && String.eqb (m_unit m) "%"
                    && String.eqb (sql_date (m_ts m)) date
                    && String.eqb (d_kind d) humidity_kind
                 then [ {| h_hour := sql_hour (m_ts m); h_value := m_value m;
                           h_avg_humidity := avg m d |} ]
                 else []) ds) ms))
  = length (filter (fun p => humidity_pair room_id date hour p)
                   (list_prod ms ds)).
Proof.
  induction ms as [|m ms IH]; [reflexivity|].
  simpl. rewrite !filter_app, !length_app, IH. f_equal.
  apply hour_count_one_measurement.
Qed.

Lemma subquery_hour_count (db : database) (room_id : Z) (date hour : string) :
  length (filter (fun hr => String.eqb (h_hour hr) hour)
                 (humidity_subquery db room_id date))
  = length (filter (fun p => humidity_pair room_id date hour p)
                   (list_prod (tbl_measurements db) (tbl_devices db))).
Proof. apply (hour_count_join (avg_humidity db)). Qed.

(** X22.  For a stored room, with timestamps in the form [datetime('now')]
    writes, an hour is in the list [calc_hours_with_humidity_above] returns
    only if it is one of the hours of the list in the query and the join of
    [measurements] and [devices] has more than three humidity rows of that
    room, date and hour: an hour with at most three humidity measurements is
    never reported, whatever the values are. *)
Theorem reported_hour_has_measurements (db : database) (room : Room)
    (date : string) (row : room_row) (h : Z) :
  fetchone (filter (fun r => String.eqb (r_name r) (room_name room))
                   (tbl_rooms db)) = Some row ->
  (forall m, In m (tbl_measurements db) -> canonical_ts (m_ts m) = true) ->
  exists hours,
    calc_hours_with_humidity_above db room date = Ok hours
    /\ (In h hours ->
        exists hour,
          hour_in_list hour = true
          /\ py_int hour = Ok h
          /\ 3 < Z.of_nat
                   (length (filter (fun p => humidity_pair (r_id row) date hour p)
                                   (list_prod (tbl_measurements db)
                                              (tbl_devices db))))).
Proof.
  intros Hrow _.
  destruct (calc_hours_result db room date row Hrow) as (hs & Hhs & Hcalc).
  exists (sorted hs). split; [exact Hcalc|].
  apply map_result_Forall2 in Hhs. rewrite In_sorted.
  intros Hh. destruct (Forall2_In_r _ _ _ _ Hhs Hh) as (p & Hp & Hint).
  exists (fst p). pose proof (listed_of_group _ _ Hp) as Hlisted.
  split; [exact Hlisted|]. split; [exact Hint|].
  apply In_group_by_hour_having in Hp as (_ & Hc & Hgt).
  rewrite filter_filter_bool in Hc.
  rewrite <- subquery_hour_count.
  pose proof (length_filter_and_le
                (fun hr => String.eqb (h_hour hr) (fst p))
                (fun hr => hour_in_list (h_hour hr)
                           && sql_gt (h_value hr) (h_avg_humidity hr))
                (humidity_subquery db (r_id row) date)) as Hle.
  lia.
Qed.

Lemma reported_hour_has_measurements_witness :
  exists hours,
    calc_hours_with_humidity_above
      (Examples.db_humidity "07") Examples.bathroom "2024-01-27" = Ok hours
    /\ (In 7 hours ->
        exists hour,
          hour_in_list hour = true
          /\ py_int hour = Ok 7
          /\ 3 < Z.of_nat
                   (length (filter (fun p => humidity_pair 1 "2024-01-27" hour p)
                                   (list_prod
                                      (tbl_measurements (Examples.db_humidity "07"))
                                      (tbl_devices (Examples.db_humidity "07")))))).
Proof.
  apply (reported_hour_has_measurements (Examples.db_humidity "07")
           Examples.bathroom "2024-01-27" Examples.room1 7).
  - reflexivity.
  - intros m Hm. simpl in Hm.
    repeat (destruct Hm as [<-|Hm]; [reflexivity|]). destruct Hm.
Defined.

(* ===================================================================== *)
(** * The sensor endpoints *)
(* ===================================================================== *)

Section SensorEndpoints.

Lemma first_row_id (db : database) (uuid : string) (row : device_row) :
  fetchone (filter (fun d => String.eqb (d_id d) uuid) (tbl_devices db))
  = Some row ->
  d_id row = uuid.
Proof.
  intros Hrow. unfold fetchone in Hrow. apply head_Some_elem_of in Hrow.
  apply list_elem_of_filter in Hrow as [H _].
  now apply Is_true_true, String.eqb_eq in H.
Qed.

Lemma get_sensor_by_id (db : database) (uuid : string) (row : device_row) :
  fetchone (filter (fun d => String.eqb (d_id d) uuid) (tbl_devices db))
  = Some row ->
  d_category row = "sensor" ->
  get_device_by_id db uuid
  = Some (Sensor uuid (d_product row) (d_supplier row) (d_kind row)).
Proof.
  intros Hrow Hcat. unfold get_device_by_id.
  rewrite Hrow, Hcat, (first_row_id db uuid row Hrow). reflexivity.
Qed.

Lemma get_non_sensor_by_id (db : database) (uuid : string) :
  (forall row,
      fetchone (filter (fun d => String.eqb (d_id d) uuid) (tbl_devices db))
      = Some row -> d_category row <> "sensor") ->
  get_device_by_id db uuid = None
  \/ exists i m su t, get_device_by_id db uuid = Some (Actuator i m su t Off).
Proof.
  intros Hcat. unfold get_device_by_id.
  destruct (fetchone _) as [row|]; [|now left].
  specialize (Hcat row eq_refl).
  destruct (String.eqb_spec (d_category row) "sensor"); [contradiction|].
  destruct (String.eqb (d_category row) "actuator"); [|now left].
  right. unfold new_Actuator. eauto.
Qed.

Lemma delete_oldest_nothing (db : database) (sensor_id : string) :
  rows_of db sensor_id = [] -> delete_oldest_measurement db sensor_id = db.
Proof.
  intros Hnil. unfold delete_oldest_measurement.
  destruct (order_by_ts_limit_1 ts_asc (measurements_of db sensor_id))
    as [[i row]|] eqn:Hsel; [|reflexivity].
  apply oldest_selected in Hsel as (_ & _ & r & rs & Hrows & _). congruence.
Qed.

End SensorEndpoints.

(** X23.  For an id whose device row is not of category ['sensor'] (an
    actuator, and so also a heat pump, which the loader treats as a sensor
    too) and for an id without a device row, the four sensor endpoints answer
    404 "Sensor not found", and the two that write leave the database as it
    is. *)
Theorem sensor_endpoints_reject_non_sensors (db : database) (uuid : string)
    (measurement : NewSensorMeasurement) (now : string) :
  (forall row,
      fetchone (filter (fun d => String.eqb (d_id d) uuid) (tbl_devices db))
      = Some row -> d_category row <> "sensor") ->
  get_current_sensor_measurement db uuid = HTTPException 404 "Sensor not found"
  /\ add_measurement_for_sensor db uuid measurement now
     = (db, HTTPException 404 "Sensor not found")
  /\ get_latest_sensor_measurements db uuid = HTTPException 404 "Sensor not found"
  /\ delete_oldest_measurement_for_sensor db uuid
     = (db, HTTPException 404 "Sensor not found").
Proof.
  intros Hcat.
  unfold get_current_sensor_measurement, add_measurement_for_sensor,
    get_latest_sensor_measurements, delete_oldest_measurement_for_sensor.
  destruct (get_non_sensor_by_id db uuid Hcat) as [->|(i & m & su & t & ->)];
    repeat split.
Qed.

Lemma sensor_endpoints_reject_non_sensors_witness :
  get_current_sensor_measurement Fixtures.db_measured "hp"
  = HTTPException 404 "Sensor not found"
  /\ add_measurement_for_sensor Fixtures.db_measured "hp" (Fixtures.reading 30)
                                "2024-01-28 07:00:00"
     = (Fixtures.db_measured, HTTPException 404 "Sensor not found").
Proof.
  pose proof (sensor_endpoints_reject_non_sensors Fixtures.db_measured "hp"
                (Fixtures.reading 30) "2024-01-28 07:00:00") as H.
  destruct H as (H1 & H2 & _).
  - intros row Hrow. inversion Hrow; subst. discriminate.
  - split; [exact H1 | exact H2].
Defined.

(** X24.  For the id of a sensor row, posting a measurement at a time later
    than every timestamp the sensor has succeeds, and the current measurement
    read afterwards is the one posted, with that time. *)
Theorem post_then_current (db : database) (uuid : string) (row : device_row)
    (measurement : NewSensorMeasurement) (now : string) :
  fetchone (filter (fun d => String.eqb (d_id d) uuid) (tbl_devices db))
  = Some row ->
  d_category row = "sensor" ->
  (forall m, In m (tbl_measurements db) -> m_device m = uuid ->
             String.ltb (m_ts m) now = true) ->
  snd (add_measurement_for_sensor db uuid measurement now)
  = Response "Measurement added successfully"
  /\ get_current_sensor_measurement
       (fst (add_measurement_for_sensor db uuid measurement now)) uuid
     = Response {| ms_timestamp := now; ms_value := nm_value measurement;
                   ms_unit := nm_unit measurement |}.
Proof.
  intros Hrow Hcat Hlater.
  pose proof (get_sensor_by_id db uuid row Hrow Hcat) as Hget.
  unfold add_measurement_for_sensor. rewrite Hget. simpl.
  split; [reflexivity|].
  unfold get_current_sensor_measurement.
  change (get_device_by_id (add_measurement_to_sensor db uuid measurement now) uuid)
    with (get_device_by_id db uuid).
  rewrite Hget. simpl.
  rewrite latest_reading_rows. simpl dev_id. rewrite rows_of_add, String.eqb_refl.
  set (new := {| m_device := uuid; m_value := nm_value measurement;
                 m_unit := nm_unit measurement; m_ts := now |}).
  destruct (rows_of db uuid ++ [new]) as [|r rs] eqn:E.
  { destruct (rows_of db uuid); discriminate. }
  simpl. rewrite (pick_latest_added (rows_of db uuid) new r rs).
  - reflexivity.
  - intros m Hm. apply In_rows_of in Hm as [Hm Hdev]. now apply Hlater.
  - exact E.
Qed.

Lemma post_then_current_witness :
  get_current_sensor_measurement
    (fst (add_measurement_for_sensor Fixtures.db_measured "t1"
            (Fixtures.reading 23) "2024-01-28 07:00:00")) "t1"
  = Response {| ms_timestamp := "2024-01-28 07:00:00"; ms_value := 23%Q;
                ms_unit := temperature_unit |}.
Proof.
  assert (Hlater : forall m, In m (tbl_measurements Fixtures.db_measured) ->
                             m_device m = "t1" ->
                             String.ltb (m_ts m) "2024-01-28 07:00:00" = true).
  { intros m Hm Hdev. simpl in Hm.
    repeat (destruct Hm as [<-|Hm]; [try reflexivity; discriminate Hdev|]).
    destruct Hm. }
  apply (proj2 (post_then_current Fixtures.db_measured "t1"
                  (Examples.device "t1" 1 "Temperature Sensor" "sensor")
                  (Fixtures.reading 23) "2024-01-28 07:00:00"
                  eq_refl eq_refl Hlater)).
Defined.

(** X25.  For a sensor without measurements the current-measurement endpoint
    answers 404 "Latest reading not found", the values endpoint answers with
    the empty list, and the delete endpoint reports success and leaves the
    database as it is. *)
Theorem endpoints_on_sensor_without_measurements (db : database) (uuid : string)
    (row : device_row) :
  fetchone (filter (fun d => String.eqb (d_id d) uuid) (tbl_devices db))
  = Some row ->
  d_category row = "sensor" ->
  (forall m, In m (tbl_measurements db) -> m_device m <> uuid) ->
  get_current_sensor_measurement db uuid
  = HTTPException 404 "Latest reading not found"
  /\ get_latest_sensor_measurements db uuid = Response []
  /\ delete_oldest_measurement_for_sensor db uuid
     = (db, Response "Oldest measurement deleted successfully").
Proof.
  intros Hrow Hcat Hno.
  pose proof (get_sensor_by_id db uuid row Hrow Hcat) as Hget.
  apply rows_of_nil in Hno.
  unfold get_current_sensor_measurement, get_latest_sensor_measurements,
    delete_oldest_measurement_for_sensor.
  rewrite Hget. simpl. rewrite latest_reading_rows. simpl dev_id. rewrite Hno.
  now rewrite (delete_oldest_nothing db uuid Hno).
Qed.

Lemma endpoints_on_sensor_without_measurements_witness :
  get_current_sensor_measurement Examples.db_house "t1"
  = HTTPException 404 "Latest reading not found"
  /\ get_latest_sensor_measurements Examples.db_house "t1" = Response [].
Proof.
  pose proof (endpoints_on_sensor_without_measurements Examples.db_house "t1"
                (Examples.device "t1" 1 "Temperature Sensor" "sensor")
                eq_refl eq_refl (fun m Hm => match Hm with end)) as (H1 & H2 & _).
  split; [exact H1 | exact H2].
Defined.

(* ===================================================================== *)
(** * The floor endpoint on the loaded house *)
(* ===================================================================== *)

Lemma head_filter_found {A} (P : A -> bool) (l : list A) (x : A) :
  In x l -> P x = true ->
  exists y, head (filter (fun a => P a) l) = Some y /\ In y l /\ P y = true.
Proof.
  induction l as [|a l IH]; simpl; [intros []|].
  intros Hx HP. rewrite filter_cons. destruct (P a) eqn:Ea; simpl.
  - exists a. auto.
  - destruct Hx as [->|Hx]; [congruence|].
    destruct (IH Hx HP) as (y & Hy & Hin & HPy). exists y. auto.
Qed.

(** X26.  On the house loaded from the database, with [n] the greatest floor
    number, the floor endpoint answers for the levels 1 to [n], with the
    names of the room rows of that floor number (or that number less [n]) in
    row order, and answers 404 "Floor not found" for every other number. *)
Theorem get_floor_of_loaded_house (db : database) (sh : SmartHouse) (n fid : Z) :
  load_smarthouse_deep db = Ok sh ->
  In n (map r_floor (tbl_rooms db)) ->
  (forall r, In r (tbl_rooms db) -> r_floor r <= n) ->
  (1 <= fid <= n ->
   get_floor sh fid
   = Response
       {| fm_level := fid;
          fm_rooms :=
            map r_name
                (filter (fun row => Z.eqb (r_floor row) fid
                                    || Z.eqb (r_floor row) (fid - n))
                        (tbl_rooms db)) |})
  /\ (~ (1 <= fid <= n) ->
      get_floor sh fid = HTTPException 404 "Floor not found").
Proof.
  intros Hload Hin Hle.
  assert (Hmax : sql_max (map r_floor (tbl_rooms db)) = Some n).
  { apply sql_max_is_maximum; [exact Hin|].
    intros x Hx. apply in_map_iff in Hx as (r & <- & Hr). now apply Hle. }
  pose proof (load_levels db sh n Hload Hmax) as Hlev. unfold levels in Hlev.
  unfold get_floor. split.
  - intros Hfid.
    assert (Hex : In fid (map level (floors sh))).
    { rewrite Hlev. apply in_map_iff. exists (Z.to_nat fid). split; [lia|].
      apply in_seq. lia. }
    apply in_map_iff in Hex as (fl & Hl & Hfl).
    destruct (head_filter_found (fun f => Z.eqb (level f) fid) (floors sh) fl Hfl)
      as (fl' & -> & Hfl' & Hl').
    { now apply Z.eqb_eq. }
    apply Z.eqb_eq in Hl'. rewrite Hl'. f_equal. f_equal.
    apply list_elem_of_In, list_elem_of_lookup in Hfl' as [i Hi].
    pose proof (loaded_floor_entries db sh n i fl' Hload Hmax Hi) as Hent.
    rewrite Hl' in Hent.
    apply (f_equal (map (fun e : string * Q * option Z => fst (fst e)))) in Hent.
    rewrite !map_map in Hent. exact Hent.
  - intros Hfid.
    change (head (filter (fun f => Z.eqb (level f) fid) (floors sh)))
      with (fetchone (filter (fun f => Z.eqb (level f) fid) (floors sh))).
    rewrite (fetchone_filter_none (fun f => Z.eqb (level f) fid)); [reflexivity|].
    intros fl Hfl. apply Z.eqb_neq. intros Hl. apply Hfid.
    assert (Hex : In (level fl) (map level (floors sh))) by now apply in_map.
    rewrite Hlev in Hex. apply in_map_iff in Hex as (k & Hk & Hseq).
    apply in_seq in Hseq. lia.
Qed.

Lemma get_floor_of_loaded_house_witness :
  get_floor Fixtures.house_below_ground 2
  = Response {| fm_level := 2; fm_rooms := ["Loft"; "Cellar"] |}
  /\ get_floor Fixtures.house_below_ground 0
     = HTTPException 404 "Floor not found".
Proof.
  assert (H1 : In 2 (map r_floor (tbl_rooms Fixtures.db_below_ground)))
    by (simpl; now left).
  assert (H2 : forall r, In r (tbl_rooms Fixtures.db_below_ground) -> r_floor r <= 2)
    by (intros r [<-|[<-|[<-|[]]]]; simpl; lia).
  split.
  - apply (proj1 (get_floor_of_loaded_house Fixtures.db_below_ground
                    Fixtures.house_below_ground 2 2 eq_refl H1 H2)). lia.
  - apply (proj2 (get_floor_of_loaded_house Fixtures.db_below_ground
                    Fixtures.house_below_ground 2 0 eq_refl H1 H2)). lia.
Defined.

(* ===================================================================== *)
(** * The floors of the loaded house *)
(* ===================================================================== *)

(** C9 (as stated, refuted).  A non-empty [rooms] with a greatest floor
    number does not suffice for a house to be returned: with one room on
    floor 1 and a device row that references no room the load raises
    [KeyError], and with rooms on floors 2 and -2 it raises [IndexError]. *)
Lemma C9_no_house_for_some_rooms :
  (In 1 (map r_floor (tbl_rooms Examples.db_dangling))
   /\ (forall r, In r (tbl_rooms Examples.db_dangling) -> r_floor r <= 1)
   /\ load_smarthouse_deep Examples.db_dangling = Raise KeyError
   /\ ~ (exists sh, load_smarthouse_deep Examples.db_dangling = Ok sh))
  /\ (In 2 (map r_floor (tbl_rooms Fixtures.db_floor_out_of_range))
      /\ (forall r, In r (tbl_rooms Fixtures.db_floor_out_of_range) ->
                    r_floor r <= 2)
      /\ load_smarthouse_deep Fixtures.db_floor_out_of_range = Raise IndexError
      /\ ~ (exists sh,
              load_smarthouse_deep Fixtures.db_floor_out_of_range = Ok sh)).
Proof.
  split; (split; [simpl; now left|]); split.
  - intros r [<-|[]]. simpl. lia.
  - split; [reflexivity|]. intros [sh H]. vm_compute in H. discriminate.
  - intros r [<-|[<-|[]]]; simpl; lia.
  - split; [reflexivity|]. intros [sh H]. vm_compute in H. discriminate.
Qed.

(** C9 (amended).  For a non-empty [rooms] whose greatest floor number is
    [n], in which every floor number is at least [1 - n] (as it is when floor
    numbers start at 1), every device row references the id of a room row
    and no id of an actuator row holds a quote or NUL character,
    [load_smarthouse_deep] returns a house with exactly [n] floors, of levels
    1, 2, ..., [n] in this order, whether or not a room row names the
    level. *)
Theorem C9_floors_one_to_max (db : database) (n : Z) :
  In n (map r_floor (tbl_rooms db)) ->
  (forall r, In r (tbl_rooms db) -> r_floor r <= n) ->
  (forall r, In r (tbl_rooms db) -> 1 - n <= r_floor r) ->
  (forall d, In d (tbl_devices db) ->
             exists r, In r (tbl_rooms db) /\ r_id r = d_room d) ->
  actuator_ids_plain db = true ->
  exists sh,
    load_smarthouse_deep db = Ok sh
    /\ map level (floors sh) = map Z.of_nat (seq 1 (Z.to_nat n))
    /\ Z.of_nat (length (floors sh)) = n.
Proof.
  intros Hin Hmax Hfl Hres _.
  assert (Hsql : sql_max (map r_floor (tbl_rooms db)) = Some n).
  { apply sql_max_is_maximum; [exact Hin|].
    intros x Hx. apply in_map_iff in Hx as (r & <- & Hr). now apply Hmax. }
  destruct (load_outcome db n Hsql) as [_ Hrest].
  destruct (Hrest Hfl) as [_ Hok].
  destruct (Hok Hres) as (sh & Hload & Hlev).
  exists sh. split; [exact Hload|]. split; [exact Hlev|].
  apply (f_equal (@length Z)) in Hlev. unfold levels in Hlev.
  rewrite !length_map, length_seq in Hlev.
  assert (1 <= n).
  { apply in_map_iff in Hin as (r & Hr & Hrin). specialize (Hfl r Hrin). lia. }
  lia.
Qed.

Lemma C9_floors_one_to_max_witness :
  (exists sh,
      load_smarthouse_deep Examples.db_house = Ok sh
      /\ map level (floors sh) = [1; 2; 3]
      /\ Z.of_nat (length (floors sh)) = 3)
  /\ (exists sh,
         load_smarthouse_deep Fixtures.db_below_ground = Ok sh
         /\ map level (floors sh) = [1; 2]
         /\ Z.of_nat (length (floors sh)) = 2).
Proof.
  split.
  - apply (C9_floors_one_to_max Examples.db_house 3).
    + simpl. right. now left.
    + intros r [<-|[<-|[]]]; simpl; lia.
    + intros r [<-|[<-|[]]]; simpl; lia.
    + intros d [<-|[<-|[<-|[]]]].
      * exists Examples.room1. split; [now left | reflexivity].
      * exists Examples.room3. split; [right; now left | reflexivity].
      * exists Examples.room1. split; [now left | reflexivity].
    + reflexivity.
  - apply (C9_floors_one_to_max Fixtures.db_below_ground 2).
    + simpl. now left.
    + intros r [<-|[<-|[<-|[]]]]; simpl; lia.
    + intros r [<-|[<-|[<-|[]]]]; simpl; lia.
    + intros d [].
    + reflexivity.
Defined.
